(** * Zutty: the X11 front end (src/main.cc)

    A shallow embedding of the event handling of [main.cc]: the keyboard,
    pointer and selection branches of [x11Event], the poll loop [eventLoop]
    and the OSC handler [handleOsc].

    The functions of [main.cc] drive three collaborators whose code lives in
    other translation units: the terminal ([Vterm], vterm.h), the selection
    manager ([SelectionManager], selmgr.h) and the base64 codec (base64.h).
    Every call [main.cc] makes to them is appended to a call log held in the
    world state; what the collaborators answer comes from an environment the
    theorems quantify over. *)

From Stdlib Require Import ZArith List String Ascii Bool Lia DecimalString.
Import ListNotations.

Local Open Scope string_scope.
Local Open Scope Z_scope.

(* ------------------------------------------------------------------ *)
(** ** Constants of the X11 and POSIX headers *)

Module X11.

Definition KeySym := Z.
Definition Time := Z.

(** X.h: key and button masks of [XKeyEvent.state]. *)
Definition ShiftMask : Z := Z.shiftl 1 0.
Definition ControlMask : Z := Z.shiftl 1 2.
Definition Mod1Mask : Z := Z.shiftl 1 3.
Definition Button1Mask : Z := Z.shiftl 1 8.
Definition Button3Mask : Z := Z.shiftl 1 10.
Definition CurrentTime : Time := 0.

(** poll.h *)
Definition POLLIN : Z := 0x001.
Definition POLLHUP : Z := 0x010.

(** keysymdef.h *)
Definition XK_space : KeySym := 0x0020.
Definition XK_BackSpace : KeySym := 0xff08.
Definition XK_Tab : KeySym := 0xff09.
Definition XK_Return : KeySym := 0xff0d.
Definition XK_Home : KeySym := 0xff50.
Definition XK_Left : KeySym := 0xff51.
Definition XK_Up : KeySym := 0xff52.
Definition XK_Right : KeySym := 0xff53.
Definition XK_Down : KeySym := 0xff54.
Definition XK_Page_Up : KeySym := 0xff55.
Definition XK_Page_Down : KeySym := 0xff56.
Definition XK_End : KeySym := 0xff57.
Definition XK_Insert : KeySym := 0xff63.
Definition XK_Delete : KeySym := 0xffff.
Definition XK_KP_Space : KeySym := 0xff80.
Definition XK_KP_Tab : KeySym := 0xff89.
Definition XK_KP_Enter : KeySym := 0xff8d.
Definition XK_KP_F1 : KeySym := 0xff91.
Definition XK_KP_F2 : KeySym := 0xff92.
Definition XK_KP_F3 : KeySym := 0xff93.
Definition XK_KP_F4 : KeySym := 0xff94.
Definition XK_KP_Home : KeySym := 0xff95.
Definition XK_KP_Left : KeySym := 0xff96.
Definition XK_KP_Up : KeySym := 0xff97.
Definition XK_KP_Right : KeySym := 0xff98.
Definition XK_KP_Down : KeySym := 0xff99.
Definition XK_KP_Prior : KeySym := 0xff9a.
Definition XK_KP_Next : KeySym := 0xff9b.
Definition XK_KP_End : KeySym := 0xff9c.
Definition XK_KP_Begin : KeySym := 0xff9d.
Definition XK_KP_Insert : KeySym := 0xff9e.
Definition XK_KP_Delete : KeySym := 0xff9f.
Definition XK_KP_Multiply : KeySym := 0xffaa.
Definition XK_KP_Add : KeySym := 0xffab.
Definition XK_KP_Separator : KeySym := 0xffac.
Definition XK_KP_Subtract : KeySym := 0xffad.
Definition XK_KP_Decimal : KeySym := 0xffae.
Definition XK_KP_Divide : KeySym := 0xffaf.
Definition XK_KP_0 : KeySym := 0xffb0.
Definition XK_KP_1 : KeySym := 0xffb1.
Definition XK_KP_2 : KeySym := 0xffb2.
Definition XK_KP_3 : KeySym := 0xffb3.
Definition XK_KP_4 : KeySym := 0xffb4.
Definition XK_KP_5 : KeySym := 0xffb5.
Definition XK_KP_6 : KeySym := 0xffb6.
Definition XK_KP_7 : KeySym := 0xffb7.
Definition XK_KP_8 : KeySym := 0xffb8.
Definition XK_KP_9 : KeySym := 0xffb9.
Definition XK_KP_Equal : KeySym := 0xffbd.
Definition XK_F1 : KeySym := 0xffbe.
Definition XK_F2 : KeySym := 0xffbf.
Definition XK_F3 : KeySym := 0xffc0.
Definition XK_F4 : KeySym := 0xffc1.
Definition XK_F5 : KeySym := 0xffc2.
Definition XK_F6 : KeySym := 0xffc3.
Definition XK_F7 : KeySym := 0xffc4.
Definition XK_F8 : KeySym := 0xffc5.
Definition XK_F9 : KeySym := 0xffc6.
Definition XK_F10 : KeySym := 0xffc7.
Definition XK_F11 : KeySym := 0xffc8.
Definition XK_F12 : KeySym := 0xffc9.
Definition XK_F13 : KeySym := 0xffca.
Definition XK_F14 : KeySym := 0xffcb.
Definition XK_F15 : KeySym := 0xffcc.
Definition XK_F16 : KeySym := 0xffcd.
Definition XK_F17 : KeySym := 0xffce.
Definition XK_F18 : KeySym := 0xffcf.
Definition XK_F19 : KeySym := 0xffd0.
Definition XK_F20 : KeySym := 0xffd1.
Definition XK_Shift_L : KeySym := 0xffe1.
Definition XK_Shift_R : KeySym := 0xffe2.
Definition XK_Control_L : KeySym := 0xffe3.
Definition XK_Control_R : KeySym := 0xffe4.
Definition XK_Caps_Lock : KeySym := 0xffe5.
Definition XK_Shift_Lock : KeySym := 0xffe6.
Definition XK_Meta_L : KeySym := 0xffe7.
Definition XK_Meta_R : KeySym := 0xffe8.
Definition XK_Alt_L : KeySym := 0xffe9.
Definition XK_Alt_R : KeySym := 0xffea.
Definition XK_Super_L : KeySym := 0xffeb.
Definition XK_Super_R : KeySym := 0xffec.
Definition XK_Hyper_L : KeySym := 0xffed.
Definition XK_Hyper_R : KeySym := 0xffee.

(** What [XmbLookupString] / [XLookupString] and [XFilterEvent] answer for a
    key event: the keysym, the looked-up text ([nbytes] is its length), whether
    the multibyte lookup reported [XBufferOverflow], and whether the input
    method filtered the event. *)
Record KeyLookup := mkKeyLookup {
  lk_ks : KeySym;
  lk_text : string;
  lk_overflow : bool;
  lk_filtered : bool
}.

(** [XEvent]: the tagged union, with the members [x11Event] reads. *)
Inductive XEvent : Type :=
| Expose
| ConfigureNotify (width height : Z)
| ReparentNotify
| MapNotify
| UnmapNotify
| DestroyNotify
| KeyPress (state : Z) (time : Time) (lookup : KeyLookup)
| KeyRelease
| ButtonPress (button : Z) (x y : Z) (time : Time)
| ButtonRelease (button : Z) (x y : Z) (time : Time)
| MotionNotify (x y : Z)
| FocusIn
| FocusOut
| PropertyNotify
| SelectionClear
| SelectionNotify
| SelectionRequest
| OtherEvent (type : Z).

End X11.
Import X11.

(* ------------------------------------------------------------------ *)
(** ** C and C++ library behaviour used by main.cc *)

Definition NUL : ascii := Ascii.zero.
Definition ESC : string := String (ascii_of_nat 27) "".

(** [unsigned long] subtraction ([Time] is an unsigned long, 64 bits wide). *)
Definition ulong_sub (a b : Z) : Z := (a - b) mod 2 ^ 64.

(** [std::string::find_first_of (";")]: index of the first [c], or npos. *)
Fixpoint find_first_of (c : ascii) (s : string) : option nat :=
  match s with
  | EmptyString => None
  | String a rest =>
      if Ascii.eqb a c then Some O
      else option_map S (find_first_of c rest)
  end.

(** [std::string::substr (pos)]: the characters from [pos] to the end. *)
Fixpoint substr_from (pos : nat) (s : string) : string :=
  match pos, s with
  | O, _ => s
  | S p, String _ rest => substr_from p rest
  | S _, EmptyString => EmptyString
  end.

(** [std::string::c_str ()] read as a C string: the bytes before the first
    NUL. *)
Fixpoint c_str (s : string) : string :=
  match s with
  | EmptyString => EmptyString
  | String a rest => if Ascii.eqb a NUL then EmptyString else String a (c_str rest)
  end.

(** [operator<<] on an integer. *)
Definition show_Z (z : Z) : string := NilZero.string_of_int (Z.to_int z).

Definition strlen (s : string) : Z := Z.of_nat (String.length s).

(* ------------------------------------------------------------------ *)
(** ** base64.h *)

Module base64.

Definition alphabet : string :=
  "ABCDEFGHIJKLMNOPQRSTUVWXYZabcdefghijklmnopqrstuvwxyz0123456789+/".

Definition pad : ascii := "="%char.

Definition sextet (n : Z) : ascii :=
  match String.get (Z.to_nat (Z.land n 63)) alphabet with
  | Some c => c
  | None => pad
  end.

Definition byte (c : ascii) : Z := Z.of_nat (nat_of_ascii c).

(** Modelled from the spec: [zutty::base64::encode] is defined with base64.h,
    outside main.cc; the spec calls its result [base64(s)], which is the
    standard encoding: three input bytes give four characters of the alphabet,
    a final group of one or two bytes is padded with [=]. *)
Fixpoint encode (s : string) : string :=
  match s with
  | EmptyString => EmptyString
  | String a EmptyString =>
      let n := Z.shiftl (byte a) 16 in
      String (sextet (Z.shiftr n 18)) (String (sextet (Z.shiftr n 12))
        (String pad (String pad EmptyString)))
  | String a (String b EmptyString) =>
      let n := Z.lor (Z.shiftl (byte a) 16) (Z.shiftl (byte b) 8) in
      String (sextet (Z.shiftr n 18)) (String (sextet (Z.shiftr n 12))
        (String (sextet (Z.shiftr n 6)) (String pad EmptyString)))
  | String a (String b (String c rest)) =>
      let n := Z.lor (Z.lor (Z.shiftl (byte a) 16) (Z.shiftl (byte b) 8)) (byte c) in
      String (sextet (Z.shiftr n 18)) (String (sextet (Z.shiftr n 12))
        (String (sextet (Z.shiftr n 6)) (String (sextet n) (encode rest))))
  end.

End base64.

(* ------------------------------------------------------------------ *)
(** ** The collaborators: vterm.h and selmgr.h *)

(** [VtKey]: the key tags [x11Event] sends. *)
Inductive VtKey : Type :=
| Key_Return | Key_Backspace | Key_Tab | Key_Insert | Key_Delete
| Key_Home | Key_End | Key_Up | Key_Down | Key_Left | Key_Right
| Key_PageUp | Key_PageDown
| Key_F1 | Key_F2 | Key_F3 | Key_F4 | Key_F5 | Key_F6 | Key_F7 | Key_F8
| Key_F9 | Key_F10 | Key_F11 | Key_F12 | Key_F13 | Key_F14 | Key_F15
| Key_F16 | Key_F17 | Key_F18 | Key_F19 | Key_F20
| Key_KP_0 | Key_KP_1 | Key_KP_2 | Key_KP_3 | Key_KP_4 | Key_KP_5
| Key_KP_6 | Key_KP_7 | Key_KP_8 | Key_KP_9
| Key_KP_F1 | Key_KP_F2 | Key_KP_F3 | Key_KP_F4
| Key_KP_Up | Key_KP_Down | Key_KP_Left | Key_KP_Right
| Key_KP_PageUp | Key_KP_PageDown | Key_KP_Plus | Key_KP_Insert
| Key_KP_Delete | Key_KP_Begin | Key_KP_Home | Key_KP_End
| Key_KP_Minus | Key_KP_Star | Key_KP_Slash | Key_KP_Comma | Key_KP_Dot
| Key_KP_Equal | Key_KP_Space | Key_KP_Tab | Key_KP_Enter.

(** Modelled from the spec: the enumerators of [VtModifier] are declared in
    vterm.h, outside main.cc; the spec gives the bit of each modifier
    (shift=1, alt=2, control=4), and [operator|] joins them. *)
Definition VtModifier := Z.

Module VtMod.
Definition none : VtModifier := 0.
Definition shift : VtModifier := 1.
Definition alt : VtModifier := 2.
Definition control : VtModifier := 4.
End VtMod.

(** The two lambdas [main.cc] hands to [SelectionManager::getSelection];
    neither captures anything. *)
Inductive Callback : Type :=
| PasteCallback
| Osc52ReplyCallback.

(** One entry of the call log: a call [main.cc] made, with its arguments and,
    where [main.cc] reads it, the value the callee returned. *)
Inductive Call : Type :=
| vt_resize (width height : Z)
| vt_writePty_key (key : VtKey) (mod_ : VtModifier) (ret : Z)
| vt_writePty_str (s : string) (ret : Z)
| vt_writePty_char (c : ascii) (mod_ : VtModifier) (ret : Z)
| vt_pasteSelection (s : string)
| vt_selectRectangularModeToggle
| vt_selectStart (x y : Z) (cycleSnapTo : bool)
| vt_selectExtend (x y : Z) (cycleSnapTo : bool)
| vt_selectUpdate (x y : Z)
| vt_selectFinish (ret : bool) (utf8_sel : string)
| vt_selectClear
| vt_setHasFocus (b : bool)
| vt_redraw
| vt_readPty
| selMgr_getSelection (t : Time) (cb : Callback)
| selMgr_setSelection (t : Time) (s : string)
| selMgr_onPropertyNotify
| selMgr_onSelectionClear
| selMgr_onSelectionNotify
| selMgr_onSelectionRequest
| sys_poll (fd0 : Z) (ret revents0 revents1 : Z)
| XNextEvent (e : XEvent)
| XStoreName (name : string)
| XDestroyWindow
| XCloseDisplay
| renderer_reset
| eglDestroyContext
| eglDestroySurface
| eglTerminate
| cout (msg : string)
| cerr (msg : string)
| logT (msg : string).

(** Selection Engine states and snap-to granularity, as the spec names them. *)
Inductive SelectState : Type := Idle | Selecting | Finished.
Inductive SelectSnapTo : Type := SnapChar | SnapWord | SnapLine.

(** Modelled from the spec: the Selection Engine of [Vterm] (defined with
    vterm.h, outside main.cc): its state, whether a highlight is shown, and
    the snap-to granularity. *)
Record Vterm := mkVterm {
  selectState : SelectState;
  highlight : bool;
  selectSnapTo : SelectSnapTo
}.

(** Modelled from the spec: the [SelectionManager] (defined with selmgr.h,
    outside main.cc) keeps the selection content last published through
    [setSelection]. *)
Record SelectionManager := mkSelectionManager {
  selection : string
}.

(** The function-local statics of [x11Event]. *)
Record Statics := mkStatics {
  exposed : bool;
  lastButtonReleasedAt : Time;
  lastButtonReleased : Z
}.

(** What the callees answer; the index is the position of the call in the
    call log, so successive calls may be answered differently. *)
Record Env := mkEnv {
  writePty_ret : nat -> Z;
  selectFinish_ret : nat -> bool * string
}.

Record World := mkWorld {
  statics : Statics;
  vt : Vterm;
  selMgr : SelectionManager;
  env : Env;
  calls : list Call
}.

Definition set_statics (f : Statics -> Statics) (w : World) : World :=
  mkWorld (f (statics w)) (vt w) (selMgr w) (env w) (calls w).
Definition set_vt (f : Vterm -> Vterm) (w : World) : World :=
  mkWorld (statics w) (f (vt w)) (selMgr w) (env w) (calls w).
Definition set_selMgr (f : SelectionManager -> SelectionManager) (w : World) : World :=
  mkWorld (statics w) (vt w) (f (selMgr w)) (env w) (calls w).
Definition log_call (c : Call) (w : World) : World :=
  mkWorld (statics w) (vt w) (selMgr w) (env w) (calls w ++ [c])%list.

(** The state monad the embedding is written in. *)
Definition M (A : Type) : Type := World -> A * World.

Definition ret {A : Type} (a : A) : M A := fun w => (a, w).

Definition bind {A B : Type} (m : M A) (f : A -> M B) : M B :=
  fun w => let (a, w') := m w in f a w'.

Declare Scope M_scope.
Delimit Scope M_scope with M.
Notation "x <- m ;; k" := (bind m (fun x => k))
  (at level 61, m at next level, right associativity) : M_scope.
Notation "m ;; k" := (bind m (fun _ => k))
  (at level 61, right associativity) : M_scope.
Local Open Scope M_scope.

Definition get {A : Type} (f : World -> A) : M A := fun w => (f w, w).
Definition modify (f : World -> World) : M unit := fun w => (tt, f w).
Definition call (c : Call) : M unit := modify (log_call c).

(** The world a computation leaves, and the value it returns. *)
Definition exec {A : Type} (m : M A) (w : World) : World := snd (m w).
Definition eval {A : Type} (m : M A) (w : World) : A := fst (m w).

Module Vt.

(** Modelled from the spec: the snap granularity advances
    character -> word -> line -> character. *)
Definition cycleSelectSnapTo (s : SelectSnapTo) : SelectSnapTo :=
  match s with
  | SnapChar => SnapWord
  | SnapWord => SnapLine
  | SnapLine => SnapChar
  end.

Definition resize (width height : Z) : M unit := call (vt_resize width height).

(** The three overloads of [Vterm::writePty]; each returns the number of
    bytes the PTY accepted. *)
Definition writePty_key (key : VtKey) (mod_ : VtModifier) : M Z :=
  n <- get (fun w => writePty_ret (env w) (List.length (calls w))) ;;
  call (vt_writePty_key key mod_ n) ;;
  ret n.

Definition writePty_str (s : string) : M Z :=
  n <- get (fun w => writePty_ret (env w) (List.length (calls w))) ;;
  call (vt_writePty_str s n) ;;
  ret n.

Definition writePty_char (c : ascii) (mod_ : VtModifier) : M Z :=
  n <- get (fun w => writePty_ret (env w) (List.length (calls w))) ;;
  call (vt_writePty_char c mod_ n) ;;
  ret n.

Definition pasteSelection (s : string) : M unit := call (vt_pasteSelection s).

Definition selectRectangularModeToggle : M unit :=
  call vt_selectRectangularModeToggle.

(** Modelled from the spec: [selectStart] begins [Selecting]; if
    [cycleSnapTo] is set the snap granularity advances. *)
Definition selectStart (x y : Z) (cycleSnapTo : bool) : M unit :=
  call (vt_selectStart x y cycleSnapTo) ;;
  modify (set_vt (fun v =>
    mkVterm Selecting true
      (if cycleSnapTo then cycleSelectSnapTo (selectSnapTo v) else selectSnapTo v))).

(** Modelled from the spec: [selectExtend] moves the active endpoint of the
    selection; the spec states the advance of the granularity for
    [selectStart] only. *)
Definition selectExtend (x y : Z) (cycleSnapTo : bool) : M unit :=
  call (vt_selectExtend x y cycleSnapTo) ;;
  modify (set_vt (fun v => mkVterm Selecting true (selectSnapTo v))).

Definition selectUpdate (x y : Z) : M unit := call (vt_selectUpdate x y).

(** Modelled from the spec: [selectFinish] moves to [Finished] and returns
    whether a selection exists, with its text in the out parameter. *)
Definition selectFinish : M (bool * string) :=
  r <- get (fun w => selectFinish_ret (env w) (List.length (calls w))) ;;
  call (vt_selectFinish (fst r) (snd r)) ;;
  modify (set_vt (fun v => mkVterm Finished (highlight v) (selectSnapTo v))) ;;
  ret r.

(** Modelled from the spec: [selectClear] forces [Idle] and erases any
    highlight. *)
Definition selectClear : M unit :=
  call vt_selectClear ;;
  modify (set_vt (fun v => mkVterm Idle false (selectSnapTo v))).

Definition setHasFocus (b : bool) : M unit := call (vt_setHasFocus b).
Definition redraw : M unit := call vt_redraw.
Definition readPty : M unit := call vt_readPty.

End Vt.

(** The bodies of the two callbacks (main.cc, lines 392-393 and 561-562 for
    the paste, 667-672 for the OSC 52 reply). *)
Definition run_callback (cb : Callback) (s : string) : M unit :=
  match cb with
  | PasteCallback => Vt.pasteSelection s
  | Osc52ReplyCallback =>
      let oss := ESC ++ "]52;;" ++ base64.encode s ++ ESC ++ "\" in
      _ <- Vt.writePty_str (c_str oss) ;;
      ret tt
  end.

Module SelMgr.

(** Modelled from the spec: [getSelection (time, callback)] requests the
    current selection content and hands it to the callback. *)
Definition getSelection (t : Time) (cb : Callback) : M unit :=
  call (selMgr_getSelection t cb) ;;
  s <- get (fun w => selection (selMgr w)) ;;
  run_callback cb s.

(** Modelled from the spec: [setSelection (time, text)] publishes [text] as
    the selection content. *)
Definition setSelection (t : Time) (s : string) : M unit :=
  call (selMgr_setSelection t s) ;;
  modify (set_selMgr (fun _ => mkSelectionManager s)).

Definition onPropertyNotify : M unit := call selMgr_onPropertyNotify.
Definition onSelectionClear : M unit := call selMgr_onSelectionClear.
Definition onSelectionNotify : M unit := call selMgr_onSelectionNotify.
Definition onSelectionRequest : M unit := call selMgr_onSelectionRequest.

End SelMgr.

(* ------------------------------------------------------------------ *)
(** ** main.cc *)

(** [convertKeyState] (lines 302-323). *)
Definition implicit_shift_keys : list KeySym :=
  [XK_KP_Decimal;
   XK_KP_0; XK_KP_1; XK_KP_2; XK_KP_3; XK_KP_4;
   XK_KP_5; XK_KP_6; XK_KP_7; XK_KP_8; XK_KP_9].

Definition convertKeyState (ks : KeySym) (state : Z) : VtModifier :=
  let mod0 := VtMod.none in
  let mod1 :=
    if negb (Z.land state ShiftMask =? 0) then
      if existsb (Z.eqb ks) implicit_shift_keys then mod0
      else Z.lor mod0 VtMod.shift
    else mod0 in
  let mod2 :=
    if negb (Z.land state ControlMask =? 0) then Z.lor mod1 VtMod.control
    else mod1 in
  if negb (Z.land state Mod1Mask =? 0) then Z.lor mod2 VtMod.alt else mod2.

(** The [KEYSEND] clauses (lines 411-478), in source order. *)
Definition KEYSEND : list (KeySym * VtKey) :=
  [(XK_Return, Key_Return); (XK_BackSpace, Key_Backspace); (XK_Tab, Key_Tab);
   (XK_Insert, Key_Insert); (XK_Delete, Key_Delete); (XK_Home, Key_Home);
   (XK_End, Key_End); (XK_Up, Key_Up); (XK_Down, Key_Down);
   (XK_Left, Key_Left); (XK_Right, Key_Right);
   (XK_Page_Up, Key_PageUp); (XK_Page_Down, Key_PageDown);
   (XK_F1, Key_F1); (XK_F2, Key_F2); (XK_F3, Key_F3); (XK_F4, Key_F4);
   (XK_F5, Key_F5); (XK_F6, Key_F6); (XK_F7, Key_F7); (XK_F8, Key_F8);
   (XK_F9, Key_F9); (XK_F10, Key_F10); (XK_F11, Key_F11); (XK_F12, Key_F12);
   (XK_F13, Key_F13); (XK_F14, Key_F14); (XK_F15, Key_F15); (XK_F16, Key_F16);
   (XK_F17, Key_F17); (XK_F18, Key_F18); (XK_F19, Key_F19); (XK_F20, Key_F20);
   (XK_KP_0, Key_KP_0); (XK_KP_1, Key_KP_1); (XK_KP_2, Key_KP_2);
   (XK_KP_3, Key_KP_3); (XK_KP_4, Key_KP_4); (XK_KP_5, Key_KP_5);
   (XK_KP_6, Key_KP_6); (XK_KP_7, Key_KP_7); (XK_KP_8, Key_KP_8);
   (XK_KP_9, Key_KP_9);
   (XK_KP_F1, Key_KP_F1); (XK_KP_F2, Key_KP_F2); (XK_KP_F3, Key_KP_F3);
   (XK_KP_F4, Key_KP_F4);
   (XK_KP_Up, Key_KP_Up); (XK_KP_Down, Key_KP_Down);
   (XK_KP_Left, Key_KP_Left); (XK_KP_Right, Key_KP_Right);
   (XK_KP_Prior, Key_KP_PageUp); (XK_KP_Next, Key_KP_PageDown);
   (XK_KP_Add, Key_KP_Plus); (XK_KP_Insert, Key_KP_Insert);
   (XK_KP_Delete, Key_KP_Delete); (XK_KP_Begin, Key_KP_Begin);
   (XK_KP_Home, Key_KP_Home); (XK_KP_End, Key_KP_End);
   (XK_KP_Subtract, Key_KP_Minus); (XK_KP_Multiply, Key_KP_Star);
   (XK_KP_Divide, Key_KP_Slash); (XK_KP_Separator, Key_KP_Comma);
   (XK_KP_Decimal, Key_KP_Dot); (XK_KP_Equal, Key_KP_Equal);
   (XK_KP_Space, Key_KP_Space); (XK_KP_Tab, Key_KP_Tab);
   (XK_KP_Enter, Key_KP_Enter)].

(** The [KEYIGN] clauses (lines 487-500): the bare modifier keys. *)
Definition KEYIGN : list KeySym :=
  [XK_Shift_L; XK_Shift_R; XK_Control_L; XK_Control_R;
   XK_Caps_Lock; XK_Shift_Lock;
   XK_Meta_L; XK_Meta_R; XK_Alt_L; XK_Alt_R;
   XK_Super_L; XK_Super_R; XK_Hyper_L; XK_Hyper_R].

(** The clause of [switch (ks)] a keysym selects. *)
Fixpoint keysend (table : list (KeySym * VtKey)) (ks : KeySym) : option VtKey :=
  match table with
  | [] => None
  | (xkey, vtkey) :: rest => if ks =? xkey then Some vtkey else keysend rest ks
  end.

Definition keyign (ks : KeySym) : bool := existsb (Z.eqb ks) KEYIGN.

Definition Multi_Click_Threshold_Ms : Z := 250.

(** How a [case] of [switch (event.type)] is left: by [break], with the
    values of [redraw] and [holdPtyIn] at that point, or by [return]. *)
Inductive Flow : Type :=
| Break (redraw holdPtyIn : bool)
| Return (value destroyed holdPtyIn : bool).

(** What [x11Event] hands back: its return value and the two reference
    parameters [destroyed] and [holdPtyIn]. *)
Record X11Result := mkX11Result {
  returned : bool;
  destroyed : bool;
  holdPtyIn : bool
}.

(** [buffer [0]] after [buffer [nbytes] = 0]. *)
Definition buffer0 (buffer : string) : ascii :=
  match buffer with
  | EmptyString => NUL
  | String c _ => c
  end.

(** [case KeyPress] (lines 362-522). *)
Definition keyPress (state : Z) (time : Time) (lk : KeyLookup)
    (xic : bool) (hold : bool) : M Flow :=
  let ks := lk_ks lk in
  let buffer := lk_text lk in
  let nbytes := strlen buffer in
  if xic && lk_overflow lk then
    call (cerr ("KeyPress event: buffer size " ++ show_Z 16
                ++ " is too small for XmbLookupString, would have needed "
                ++ " a buffer with " ++ show_Z (nbytes + 1) ++ " bytes.")) ;;
    ret (Break false hold)
  else if ((ks =? XK_Insert) || (ks =? XK_KP_Insert)) && (state =? ShiftMask) then
    SelMgr.getSelection time PasteCallback ;;
    ret (Break false hold)
  else if ((ks =? XK_space) || (ks =? XK_KP_Space))
          && negb (Z.land state (Z.lor Button1Mask Button3Mask) =? 0) then
    Vt.selectRectangularModeToggle ;;
    ret (Break false hold)
  else
    let mod_ := convertKeyState ks state in
    match keysend KEYSEND ks with
    | Some vtkey =>
        _ <- Vt.writePty_key vtkey mod_ ;;
        ret (Break true hold)
    | None =>
        if keyign ks then ret (Break true hold)
        else if lk_filtered lk then ret (Break true hold)
        else if nbytes >? 1 then
          n <- Vt.writePty_str (c_str buffer) ;;
          if n <? nbytes then ret (Return true false hold)
          else ret (Break true hold)
        else
          n <- Vt.writePty_char (buffer0 buffer) mod_ ;;
          if n <? 1 then ret (Return true false hold)
          else ret (Break true hold)
    end.

(** [case ButtonPress] (lines 525-544). *)
Definition buttonPress (button x y : Z) (time : Time) (hold : bool) : M Flow :=
  st <- get statics ;;
  let cycleSnapTo :=
    (button =? lastButtonReleased st)
    && (ulong_sub time (lastButtonReleasedAt st) <? Multi_Click_Threshold_Ms) in
  if button =? 1 then
    Vt.selectStart x y cycleSnapTo ;;
    ret (Break false true)
  else if button =? 3 then
    Vt.selectExtend x y cycleSnapTo ;;
    ret (Break false true)
  else ret (Break false hold).

(** [case ButtonRelease] (lines 545-569). *)
Definition buttonRelease (button : Z) (time : Time) (hold : bool) : M Flow :=
  modify (set_statics (fun st => mkStatics (exposed st) time button)) ;;
  if (button =? 1) || (button =? 3) then
    r <- Vt.selectFinish ;;
    (if fst r then SelMgr.setSelection time (snd r) else ret tt) ;;
    ret (Break false false)
  else if button =? 2 then
    SelMgr.getSelection time PasteCallback ;;
    ret (Break false hold)
  else if button =? 4 then
    call (cout "Mouse wheel up") ;;
    ret (Break false hold)
  else if button =? 5 then
    call (cout "Mouse wheel down") ;;
    ret (Break false hold)
  else ret (Break false hold).

(** [switch (event.type)] of [x11Event] (lines 339-595). *)
Definition x11Event_switch (event : XEvent) (xic : bool) (hold : bool) : M Flow :=
  match event with
  | Expose =>
      modify (set_statics (fun st =>
        mkStatics true (lastButtonReleasedAt st) (lastButtonReleased st))) ;;
      ret (Break true hold)
  | ConfigureNotify width height =>
      Vt.resize width height ;;
      ret (Break true hold)
  | ReparentNotify =>
      call (cout "ReparentNotify") ;;
      ret (Break true hold)
  | MapNotify =>
      call (cout "MapNotify") ;;
      ret (Break false hold)
  | UnmapNotify =>
      call (cout "UnmapNotify") ;;
      ret (Break false hold)
  | DestroyNotify =>
      call (cout "DestroyNotify") ;;
      ret (Return true true hold)
  | KeyPress state time lk => keyPress state time lk xic hold
  | KeyRelease => ret (Break false hold)
  | ButtonPress button x y time => buttonPress button x y time hold
  | ButtonRelease button _ _ time => buttonRelease button time hold
  | MotionNotify x y =>
      Vt.selectUpdate x y ;;
      ret (Break false hold)
  | FocusIn =>
      Vt.setHasFocus true ;;
      ret (Break false hold)
  | FocusOut =>
      Vt.setHasFocus false ;;
      ret (Break false hold)
  | PropertyNotify =>
      SelMgr.onPropertyNotify ;;
      ret (Break false hold)
  | SelectionClear =>
      Vt.selectClear ;;
      SelMgr.onSelectionClear ;;
      ret (Break false hold)
  | SelectionNotify =>
      SelMgr.onSelectionNotify ;;
      ret (Break false hold)
  | SelectionRequest =>
      SelMgr.onSelectionRequest ;;
      ret (Break false hold)
  | OtherEvent type =>
      call (cout ("X event.type = " ++ show_Z type)) ;;
      ret (Break false hold)
  end.

(** [x11Event] (lines 325-602); [pty_fd] is a parameter the body never
    reads. *)
Definition x11Event (event : XEvent) (xic : bool) (pty_fd : Z) (hold : bool)
    : M X11Result :=
  f <- x11Event_switch event xic hold ;;
  match f with
  | Return value destroyed_ hold' => ret (mkX11Result value destroyed_ hold')
  | Break redraw hold' =>
      st <- get statics ;;
      (if exposed st && redraw then Vt.redraw else ret tt) ;;
      ret (mkX11Result false false hold')
  end.

(** One return of [poll]: its return value, the readiness of the PTY and of
    the X11 connection, and the events [XPending] / [XNextEvent] then find
    queued. *)
Record PollRound := mkPollRound {
  poll_ret : Z;
  pty_revents : Z;
  x11_revents : Z;
  pending : list XEvent
}.

(** [poll (pollset, 2, -1)]: an entry whose [fd] is negative is ignored and
    its [revents] is returned as 0 (POSIX). *)
Definition poll (fd0 : Z) (r : PollRound) : M (Z * Z * Z) :=
  let revents0 := if fd0 <? 0 then 0 else pty_revents r in
  call (sys_poll fd0 (poll_ret r) revents0 (x11_revents r)) ;;
  ret (poll_ret r, revents0, x11_revents r).

(** [while (XPending (dpy))] (lines 629-637) over the queued events:
    [Some d] when [eventLoop] returns [d] from inside it, with the value of
    [holdPtyIn] when it is left. *)
Fixpoint x11Pending (queue : list XEvent) (xic : bool) (pty_fd : Z) (hold : bool)
    : M (option bool * bool) :=
  match queue with
  | [] => ret (None, hold)
  | event :: rest =>
      call (XNextEvent event) ;;
      r <- x11Event event xic pty_fd hold ;;
      if returned r then ret (Some (destroyed r), holdPtyIn r)
      else x11Pending rest xic pty_fd (holdPtyIn r)
  end.

(** [while (1)] of [eventLoop] (lines 617-638), run over the returns of
    [poll] the environment provides: [Some d] when the loop returns [d],
    [None] when it is blocked in [poll] after the last of them. *)
Fixpoint eventLoop_from (rounds : list PollRound) (xic : bool) (pty_fd : Z)
    (hold : bool) : M (option bool) :=
  match rounds with
  | [] => ret None
  | r :: rest =>
      p <- poll (if hold then - pty_fd else pty_fd) r ;;
      let '(rc, revents0, revents1) := p in
      if rc <? 0 then ret (Some false)
      else if negb (Z.land revents0 POLLHUP =? 0) then ret (Some false)
      else
        (if negb (Z.land revents0 POLLIN =? 0) then Vt.readPty else ret tt) ;;
        q <- (if negb (Z.land revents1 POLLIN =? 0)
              then x11Pending (pending r) xic pty_fd hold
              else ret (None, hold)) ;;
        match fst q with
        | Some d => ret (Some d)
        | None => eventLoop_from rest xic pty_fd (snd q)
        end
  end.

(** [eventLoop] (lines 604-639). *)
Definition eventLoop (rounds : list PollRound) (xic : bool) (x11_fd pty_fd : Z)
    : M (option bool) :=
  call (cout ("x11_fd = " ++ show_Z x11_fd)) ;;
  call (cout ("pty_fd = " ++ show_Z pty_fd)) ;;
  eventLoop_from rounds xic pty_fd false.

(** The end of [main] (lines 908-920): the event loop, then the teardown of
    the session; [Some 0] is the exit status, [None] that the loop has not
    returned. *)
Definition main_session (rounds : list PollRound) (xic : bool) (x11_fd pty_fd : Z)
    : M (option Z) :=
  d <- eventLoop rounds xic x11_fd pty_fd ;;
  match d with
  | None => ret None
  | Some destroyed_ =>
      call renderer_reset ;;
      call eglDestroyContext ;;
      call eglDestroySurface ;;
      call eglTerminate ;;
      (if negb destroyed_ then call XDestroyWindow else ret tt) ;;
      call XCloseDisplay ;;
      ret (Some 0)
  end.

Section Osc.

(** [zutty::base64::decode], which the handler applies to the payload; it
    is defined with base64.h, outside main.cc. *)
Variable base64_decode : string -> string.

(** [handleOsc] (lines 641-685). *)
Definition handleOsc (cmd : Z) (arg : string) : M unit :=
  if (cmd =? 0) || (cmd =? 2) then call (XStoreName arg)
  else if cmd =? 52 then
    match find_first_of ";"%char arg with
    | None =>
        call (logT ("Malformed argument to OSC 52 (missing ';'): '" ++ arg ++ "'"))
    | Some p =>
        let pc := String.substring 0 p arg in
        let pd := substr_from (p + 1) arg in
        call (logT ("OSC 52: pc='" ++ pc ++ "', pd='" ++ pd ++ "'")) ;;
        if String.eqb pd "?" then
          SelMgr.getSelection CurrentTime Osc52ReplyCallback
        else
          let sel := base64_decode pd in
          SelMgr.setSelection CurrentTime sel
    end
  else call (cout ("unhandled OSC: '" ++ show_Z cmd ++ ";" ++ arg ++ "'")).

End Osc.

(* ------------------------------------------------------------------ *)
(** ** Reading the call log *)

(** The calls that follow the first call satisfying [p], if there is one. *)
Fixpoint after_first (p : Call -> bool) (cs : list Call) : option (list Call) :=
  match cs with
  | [] => None
  | c :: rest => if p c then Some rest else after_first p rest
  end.

(** A write of looked-up text that the PTY accepted only in part. *)
Definition short_text_write (c : Call) : bool :=
  match c with
  | vt_writePty_str s n => n <? strlen s
  | vt_writePty_char _ _ n => n <? 1
  | _ => false
  end.

(** Any of the three overloads of [Vterm::writePty]. *)
Definition is_writePty (c : Call) : bool :=
  match c with
  | vt_writePty_key _ _ _ | vt_writePty_str _ _ | vt_writePty_char _ _ _ => true
  | _ => false
  end.

(** A return of [poll] that reports POLLHUP on the PTY entry. *)
Definition reports_hangup (c : Call) : bool :=
  match c with
  | sys_poll _ _ revents0 _ => negb (Z.land revents0 POLLHUP =? 0)
  | _ => false
  end.

(** The calls [eventLoop] makes itself, as opposed to those of [x11Event]. *)
Definition loop_call (c : Call) : bool :=
  match c with
  | sys_poll _ _ _ _ | vt_readPty | XNextEvent _ => true
  | _ => false
  end.

(** A stretch of the log without a call of [eventLoop]'s own. *)
Definition quiet (cs : list Call) : bool :=
  forallb (fun c => negb (loop_call c)) cs.

(** The calls of the session teardown at the end of [main], when the window
    was not destroyed. *)
Definition teardown_calls : list Call :=
  [renderer_reset; eglDestroyContext; eglDestroySurface; eglTerminate;
   XDestroyWindow; XCloseDisplay].

Section Discipline.

(** A tracker follows the button events delivered and says whether a drag
    is in progress. *)
Variable T : Type.
Variable track : XEvent -> T -> T.
Variable held : T -> bool.
Variable pty_fd : Z.

(** The log keeps the PTY out of [poll] while the tracker says a drag is in
    progress: every [poll] made then has a negative first descriptor and
    reports nothing for it, and [readPty] is not called; every [poll] made
    otherwise has [pty_fd] as its first descriptor. The result is the state
    of the tracker at the end of the log, [None] when the log breaks this. *)
Fixpoint pty_excluded_while (st : T) (cs : list Call) : option T :=
  match cs with
  | [] => Some st
  | XNextEvent e :: rest => pty_excluded_while (track e st) rest
  | sys_poll fd0 _ revents0 _ :: rest =>
      if held st then
        if (fd0 <? 0) && (revents0 =? 0) then pty_excluded_while st rest else None
      else
        if fd0 =? pty_fd then pty_excluded_while st rest else None
  | vt_readPty :: rest =>
      if held st then None else pty_excluded_while st rest
  | _ :: rest => pty_excluded_while st rest
  end.

End Discipline.

(** The tracker of [x11Event]: [holdPtyIn] is set by a press of button 1 or
    3 and reset by the next release of button 1 or 3. *)
Definition until_next_release (e : XEvent) (hold : bool) : bool :=
  match e with
  | ButtonPress button _ _ _ =>
      if (button =? 1) || (button =? 3) then true else hold
  | ButtonRelease button _ _ _ =>
      if (button =? 1) || (button =? 3) then false else hold
  | _ => hold
  end.

(** The tracker in the words of the spec: a drag lasts from the press of
    button 1 or 3 to the release of that same button; the state says which
    of the two buttons is down. *)
Definition until_matching_release (e : XEvent) (down : bool * bool) : bool * bool :=
  match e with
  | ButtonPress button _ _ _ =>
      if button =? 1 then (true, snd down)
      else if button =? 3 then (fst down, true)
      else down
  | ButtonRelease button _ _ _ =>
      if button =? 1 then (false, snd down)
      else if button =? 3 then (fst down, false)
      else down
  | _ => down
  end.

Definition drag_in_progress (down : bool * bool) : bool := fst down || snd down.

(** The [cycleSnapTo] flag in the words of the spec: the press repeats the
    button released last, within the threshold, at the coordinate of that
    click. *)
Definition spec_cycleSnapTo (relButton relX relY : Z) (relTime : Time)
    (button x y : Z) (time : Time) : bool :=
  (button =? relButton)
  && (ulong_sub time relTime <? Multi_Click_Threshold_Ms)
  && (x =? relX) && (y =? relY).

(** The [cycleSnapTo] flag [x11Event] computes from its statics. *)
Definition cycleSnapTo_flag (st : Statics) (button : Z) (time : Time) : bool :=
  (button =? lastButtonReleased st)
  && (ulong_sub time (lastButtonReleasedAt st) <? Multi_Click_Threshold_Ms).

(** A string without NUL bytes. *)
Fixpoint nul_free (s : string) : bool :=
  match s with
  | EmptyString => true
  | String a rest => negb (Ascii.eqb a NUL) && nul_free rest
  end.

(** A world at start-up: nothing exposed or released yet, an idle Selection
    Engine, the given selection content and answers of the callees. *)
Definition initial_world (sel : string) (e : Env) : World :=
  mkWorld (mkStatics false 0 0) (mkVterm Idle false SnapChar)
          (mkSelectionManager sel) e [].

(** Callees for the examples: a PTY that accepts nothing, or that answers
    64 to every write (none of the examples offers more), and a Selection
    Engine with the text "ab" selected, or with nothing selected. *)
Definition env_short : Env := mkEnv (fun _ => 0) (fun _ => (true, "ab")).
Definition env_full : Env := mkEnv (fun _ => 64) (fun _ => (true, "ab")).
Definition env_empty_selection : Env := mkEnv (fun _ => 64) (fun _ => (false, "")).

(** Events and returns of [poll] for the examples: the key [a]; a key
    press followed by PTY input; a hangup in the second round; a drag with
    button 1; and button 3 pressed and released while button 1 is down. *)
Definition key_a : XEvent := KeyPress 0 100 (mkKeyLookup 0x61 "a" false false).

Definition rounds_key : list PollRound :=
  [mkPollRound 1 0 POLLIN [key_a]; mkPollRound 1 POLLIN 0 []].

Definition rounds_hangup : list PollRound :=
  [mkPollRound 1 POLLIN 0 [];
   mkPollRound 1 (Z.lor POLLIN POLLHUP) POLLIN [key_a];
   mkPollRound 1 POLLIN 0 []].

Definition rounds_drag : list PollRound :=
  [mkPollRound 1 0 POLLIN [ButtonPress 1 10 10 100];
   mkPollRound 1 POLLIN 0 [];
   mkPollRound 1 POLLIN POLLIN [ButtonRelease 1 30 10 400];
   mkPollRound 1 POLLIN 0 []].

Definition rounds_two_buttons : list PollRound :=
  [mkPollRound 1 0 POLLIN
     [ButtonPress 1 10 10 100; ButtonPress 3 50 10 200; ButtonRelease 3 50 10 300];
   mkPollRound 1 POLLIN 0 []].

(** A press and a release of button 1 at a pixel coordinate. *)
Definition press1 (at_ : Z * Z) (time : Time) : XEvent :=
  ButtonPress 1 (fst at_) (snd at_) time.
Definition release1 (at_ : Z * Z) (time : Time) : XEvent :=
  ButtonRelease 1 (fst at_) (snd at_) time.

(** The snap granularity of the Selection Engine after [x11Event] has
    handled the events [evs] in turn. *)
Definition snap_after (evs : list XEvent) (xic : bool) (pty_fd : Z) (hold : bool)
    (w : World) : SelectSnapTo :=
  selectSnapTo (vt (exec (x11Pending evs xic pty_fd hold) w)).

(** [logs m w new]: run from [w], the computation [m] appends exactly the
    calls [new] to the call log. *)
Definition logs {A : Type} (m : M A) (w : World) (new : list Call) : Prop :=
  calls (exec m w) = (calls w ++ new)%list.

(** The string [handleOsc]'s reply callback hands to [writePty] for the
    selection content [s]: ESC ] 52 ; ; base64(s) ESC \ *)
Definition osc52_reply (s : string) : string :=
  ESC ++ "]52;;" ++ base64.encode s ++ ESC ++ "\".

(* ------------------------------------------------------------------ *)
(** ** Start-up code of main and further readings of the call log *)

Module Xlib.

(** Xlib.h: input method styles. *)
Definition XIMPreeditNothing : Z := 0x0008.
Definition XIMStatusNothing : Z := 0x0400.

End Xlib.

(** The choice of the input style in [main] (lines 836-845): the first of the
    supported styles that equals PreeditNothing | StatusNothing, or 0. *)
Fixpoint choose_xim_style (supported_styles : list Z) : Z :=
  match supported_styles with
  | [] => 0
  | style :: rest =>
      if style =? Z.lor Xlib.XIMPreeditNothing Xlib.XIMStatusNothing then style
      else choose_xim_style rest
  end.

(** Whether [main] ends up with an input context (lines 866-874): it asks
    [XCreateIC] for one only with an input method and a style, and
    [XCreateIC] may fail. *)
Definition have_xic (xim : bool) (xim_style : Z) (XCreateIC_ok : bool) : bool :=
  if xim && negb (xim_style =? 0) then XCreateIC_ok else false.

(** The event [XNextEvent] handed out is a DestroyNotify. *)
Definition is_destroy_event (c : Call) : bool :=
  match c with
  | XNextEvent DestroyNotify => true
  | _ => false
  end.

(** A return of [poll] with a negative return value. *)
Definition poll_failed (c : Call) : bool :=
  match c with
  | sys_poll _ rc _ _ => rc <? 0
  | _ => false
  end.


(** The events handed out by [XNextEvent], in the order of the log. *)
Fixpoint dequeued (cs : list Call) : list XEvent :=
  match cs with
  | [] => []
  | XNextEvent e :: rest => e :: dequeued rest
  | _ :: rest => dequeued rest
  end.

(** The events the returns of [poll] announce on the X11 connection. *)
Definition x_arrivals (rounds : list PollRound) : list XEvent :=
  flat_map (fun r => if negb (Z.land (x11_revents r) POLLIN =? 0) then pending r else [])
           rounds.

(** [redraw] is called only once an Expose event has been handed out (or
    [seen] says one had been before the log starts); the result is whether
    one has been by the end of the log, [None] when the log breaks this. *)
Fixpoint redraw_after_expose (seen : bool) (cs : list Call) : option bool :=
  match cs with
  | [] => Some seen
  | XNextEvent Expose :: rest => redraw_after_expose true rest
  | vt_redraw :: rest => if seen then redraw_after_expose seen rest else None
  | _ :: rest => redraw_after_expose seen rest
  end.

(** A return of [poll] after which the loop reads the PTY: it did not fail
    and reports POLLIN without POLLHUP on the PTY entry. *)
Definition announces_input (rc revents0 : Z) : bool :=
  negb (rc <? 0) && (Z.land revents0 POLLHUP =? 0) && negb (Z.land revents0 POLLIN =? 0).

(** Every return of [poll] that announces PTY input is followed at once by
    [readPty], and [readPty] is called nowhere else. *)
Fixpoint reads_match_polls (cs : list Call) : bool :=
  match cs with
  | [] => true
  | sys_poll _ rc revents0 _ :: rest =>
      if announces_input rc revents0 then
        match rest with
        | vt_readPty :: rest' => reads_match_polls rest'
        | _ => false
        end
      else reads_match_polls rest
  | vt_readPty :: _ => false
  | _ :: rest => reads_match_polls rest
  end.

(** The labels of a list of keysyms are pairwise different. *)
Fixpoint distinct (l : list KeySym) : bool :=
  match l with
  | [] => true
  | k :: rest => negb (existsb (Z.eqb k) rest) && distinct rest
  end.

(** Kinds of events and of calls. *)
Definition is_expose (e : XEvent) : bool :=
  match e with Expose => true | _ => false end.

Definition is_release (e : XEvent) : bool :=
  match e with ButtonRelease _ _ _ _ => true | _ => false end.

Definition is_keypress (e : XEvent) : bool :=
  match e with KeyPress _ _ _ => true | _ => false end.

Definition is_setSelection (c : Call) : bool :=
  match c with selMgr_setSelection _ _ => true | _ => false end.

Section LoopRuns.

Variable xic : bool.
Variable pty_fd : Z.

(** What [poll] reports for the PTY entry, and the log entry of the call,
    when [holdPtyIn] has the value [hold]. *)
Definition poll_revents0 (hold : bool) (r : PollRound) : Z :=
  if (if hold then - pty_fd else pty_fd) <? 0 then 0 else pty_revents r.

Definition poll_call (hold : bool) (r : PollRound) : Call :=
  sys_poll (if hold then - pty_fd else pty_fd) (poll_ret r)
           (poll_revents0 hold r) (x11_revents r).

(** The runs of [while (XPending (dpy))]: [Pending hold w queue new res hold' w']
    says that from the world [w] with [holdPtyIn = hold] the events of
    [queue] add the calls [new] to the log and leave the world [w'] and
    [holdPtyIn = hold']; [res] is [Some d] when [x11Event] asked to leave
    with [destroyed = d]. *)
Inductive Pending : bool -> World -> list XEvent -> list Call -> option bool
                    -> bool -> World -> Prop :=
| Pending_drained (hold : bool) (w : World) :
    Pending hold w [] [] None hold w
| Pending_leave (hold : bool) (w : World) (e : XEvent) (rest : list XEvent)
    (r : X11Result) (w1 : World) (evlog : list Call) :
    x11Event e xic pty_fd hold (log_call (XNextEvent e) w) = (r, w1) ->
    calls w1 = (calls (log_call (XNextEvent e) w) ++ evlog)%list ->
    returned r = true ->
    Pending hold w (e :: rest) (XNextEvent e :: evlog) (Some (destroyed r)) (holdPtyIn r) w1
| Pending_next (hold : bool) (w : World) (e : XEvent) (rest : list XEvent)
    (r : X11Result) (w1 : World) (evlog new : list Call)
    (res : option bool) (hold' : bool) (w2 : World) :
    x11Event e xic pty_fd hold (log_call (XNextEvent e) w) = (r, w1) ->
    calls w1 = (calls (log_call (XNextEvent e) w) ++ evlog)%list ->
    returned r = false ->
    Pending (holdPtyIn r) w1 rest new res hold' w2 ->
    Pending hold w (e :: rest) (XNextEvent e :: evlog ++ new) res hold' w2.

(** The world after [poll] and, when it announces PTY input, [readPty]. *)
Definition after_poll (hold : bool) (r : PollRound) (w : World) : World :=
  if negb (Z.land (poll_revents0 hold r) POLLIN =? 0)
  then log_call vt_readPty (log_call (poll_call hold r) w)
  else log_call (poll_call hold r) w.

Definition reads_of (hold : bool) (r : PollRound) : list Call :=
  if negb (Z.land (poll_revents0 hold r) POLLIN =? 0) then [vt_readPty] else [].

Definition queue_of (r : PollRound) : list XEvent :=
  if negb (Z.land (x11_revents r) POLLIN =? 0) then pending r else [].

(** The runs of [while (1)] in [eventLoop], iteration by iteration:
    [Loop hold w rounds new out w']. *)
Inductive Loop : bool -> World -> list PollRound -> list Call -> option bool
                 -> World -> Prop :=
| Loop_blocked (hold : bool) (w : World) :
    Loop hold w [] [] None w
| Loop_poll_ends (hold : bool) (w : World) (r : PollRound) (rest : list PollRound) :
    (poll_ret r <? 0) || negb (Z.land (poll_revents0 hold r) POLLHUP =? 0) = true ->
    Loop hold w (r :: rest) [poll_call hold r] (Some false)
         (log_call (poll_call hold r) w)
| Loop_event_ends (hold : bool) (w : World) (r : PollRound) (rest : list PollRound)
    (xlog : list Call) (d : bool) (hold' : bool) (w2 : World) :
    (poll_ret r <? 0) || negb (Z.land (poll_revents0 hold r) POLLHUP =? 0) = false ->
    Pending hold (after_poll hold r w) (queue_of r) xlog (Some d) hold' w2 ->
    Loop hold w (r :: rest) (poll_call hold r :: reads_of hold r ++ xlog) (Some d) w2
| Loop_again (hold : bool) (w : World) (r : PollRound) (rest : list PollRound)
    (xlog : list Call) (hold' : bool) (w2 : World)
    (new : list Call) (out : option bool) (w3 : World) :
    (poll_ret r <? 0) || negb (Z.land (poll_revents0 hold r) POLLHUP =? 0) = false ->
    Pending hold (after_poll hold r w) (queue_of r) xlog None hold' w2 ->
    Loop hold' w2 rest new out w3 ->
    Loop hold w (r :: rest) (poll_call hold r :: reads_of hold r ++ xlog ++ new) out w3.

End LoopRuns.

Definition is_io (c : Call) : bool :=
  match c with
  | sys_poll _ _ _ _ | vt_readPty => true
  | _ => false
  end.

Definition is_redraw (c : Call) : bool :=
  match c with vt_redraw => true | _ => false end.

(** The library calls of [validateShell]. *)
Inductive ShellCall : Type :=
| getusershell (ret : option string)
| endusershell
| unsetenv_SHELL.

(** [validateShell] (lines 249-269) once [resolveShell] has left the
    resolved path in [progPath]: [getusershell] is asked for the permitted
    shells one by one ([shells] is what it has to give, [None] its null
    pointer at the end) until one equals the path; when none does, SHELL is
    removed from the environment. *)
Fixpoint validateShell_scan (progPath : string) (shells : list string) : list ShellCall :=
  match shells with
  | [] => [getusershell None; endusershell; unsetenv_SHELL]
  | permShell :: rest =>
      getusershell (Some permShell)
      :: if String.eqb progPath permShell then [endusershell]
         else validateShell_scan progPath rest
  end.

(** Unfolds the monad and the collaborators, leaving the strings and the
    tables of [main.cc] folded. *)
Ltac run :=
  unfold logs, exec, eval;
  cbv [bind ret get modify call
       Vt.resize Vt.writePty_key Vt.writePty_str Vt.writePty_char
       Vt.pasteSelection Vt.selectRectangularModeToggle Vt.selectStart
       Vt.selectExtend Vt.selectUpdate Vt.selectFinish Vt.selectClear
       Vt.setHasFocus Vt.redraw Vt.readPty
       SelMgr.getSelection SelMgr.setSelection SelMgr.onPropertyNotify
       SelMgr.onSelectionClear SelMgr.onSelectionNotify SelMgr.onSelectionRequest
       run_callback log_call set_statics set_vt set_selMgr];
  cbn [statics vt selMgr env calls fst snd
       returned destroyed holdPtyIn
       selectState highlight selectSnapTo selection
       exposed lastButtonReleasedAt lastButtonReleased].

(* ------------------------------------------------------------------ *)
(** ** Strings *)

Lemma find_first_of_absent (c : ascii) (s : string) :
  ~ In c (list_ascii_of_string s) -> find_first_of c s = None.
Proof.
  induction s as [|a s IH]; simpl; intros H; [reflexivity|].
  destruct (Ascii.eqb_spec a c) as [->|_].
  - exfalso. apply H. now left.
  - rewrite IH; [reflexivity|]. intros Hin. apply H. now right.
Qed.

Lemma find_first_of_present (c : ascii) (pc pd : string) :
  ~ In c (list_ascii_of_string pc) ->
  find_first_of c (pc ++ String c pd) = Some (String.length pc).
Proof.
  induction pc as [|a pc IH]; simpl; intros H.
  - now rewrite Ascii.eqb_refl.
  - destruct (Ascii.eqb_spec a c) as [->|_].
    + exfalso. apply H. now left.
    + rewrite IH; [reflexivity|]. intros Hin. apply H. now right.
Qed.

Lemma substring_prefix (pc rest : string) :
  String.substring 0 (String.length pc) (pc ++ rest) = pc.
Proof.
  induction pc as [|a pc IH]; simpl.
  - now destruct rest.
  - now rewrite IH.
Qed.

Lemma substr_from_suffix (c : ascii) (pc pd : string) :
  substr_from (String.length pc + 1) (pc ++ String c pd) = pd.
Proof.
  induction pc as [|a pc IH]; simpl; [reflexivity|exact IH].
Qed.

Lemma c_str_nul_free (s : string) : nul_free s = true -> c_str s = s.
Proof.
  induction s as [|a s IH]; simpl; [reflexivity|].
  intros H. apply andb_prop in H as [Ha Hs].
  apply negb_true_iff in Ha. rewrite Ha. now rewrite IH.
Qed.

Lemma nul_free_app (s t : string) :
  nul_free (s ++ t) = nul_free s && nul_free t.
Proof.
  induction s as [|a s IH]; simpl; [reflexivity|].
  now rewrite IH, andb_assoc.
Qed.

Lemma c_str_length (s : string) : strlen (c_str s) <= strlen s.
Proof.
  unfold strlen. induction s as [|a s IH]; simpl; [lia|].
  destruct (Ascii.eqb a NUL); simpl; lia.
Qed.

Lemma sextet_not_nul (n : Z) : Ascii.eqb (base64.sextet n) NUL = false.
Proof.
  unfold base64.sextet. generalize (Z.to_nat (Z.land n 63)). intros k.
  do 64 (destruct k as [|k]; [reflexivity|]). reflexivity.
Qed.

Lemma encode_nul_free (s : string) : nul_free (base64.encode s) = true.
Proof.
  enough (H : nul_free (base64.encode s) = true
              /\ (forall a, nul_free (base64.encode (String a s)) = true)
              /\ (forall a b, nul_free (base64.encode (String a (String b s))) = true))
    by apply H.
  induction s as [|c s (IH0 & IH1 & IH2)].
  - split; [reflexivity|].
    split; intros; cbn [base64.encode nul_free]; rewrite !sextet_not_nul; reflexivity.
  - split; [apply IH1|]. split; [intros a; apply IH2|].
    intros a b. cbn [base64.encode nul_free]. now rewrite !sextet_not_nul, IH0.
Qed.

Lemma osc52_reply_c_str (s : string) : c_str (osc52_reply s) = osc52_reply s.
Proof.
  apply c_str_nul_free. unfold osc52_reply.
  rewrite !nul_free_app, encode_nul_free. reflexivity.
Qed.

(* ------------------------------------------------------------------ *)
(** ** handleOsc *)

Lemma handleOsc_52_separator (dec : string -> string) (pc pd : string) :
  ~ In ";"%char (list_ascii_of_string pc) ->
  handleOsc dec 52 (pc ++ String ";" pd) =
  (call (logT ("OSC 52: pc='" ++ pc ++ "', pd='" ++ pd ++ "'")) ;;
   if String.eqb pd "?" then SelMgr.getSelection CurrentTime Osc52ReplyCallback
   else SelMgr.setSelection CurrentTime (dec pd))%M.
Proof.
  intros H. unfold handleOsc. cbn [Z.eqb orb Pos.eqb].
  rewrite (find_first_of_present _ _ _ H).
  now rewrite substring_prefix, substr_from_suffix.
Qed.

(** C4: a command-52 payload without [;] is logged as malformed and
    ignored: the log gains that one message, so nothing is written to the
    PTY and no selection is published, and the selection manager, the
    terminal and the statics are as before. *)
Theorem osc52_missing_separator_ignored (dec : string -> string) (arg : string) (w : World) :
  ~ In ";"%char (list_ascii_of_string arg) ->
  logs (handleOsc dec 52 arg) w
       [logT ("Malformed argument to OSC 52 (missing ';'): '" ++ arg ++ "'")]
  /\ selMgr (exec (handleOsc dec 52 arg) w) = selMgr w
  /\ vt (exec (handleOsc dec 52 arg) w) = vt w
  /\ statics (exec (handleOsc dec 52 arg) w) = statics w.
Proof.
  intros H. unfold logs, exec, handleOsc. cbn [Z.eqb orb Pos.eqb].
  rewrite (find_first_of_absent _ _ H). repeat split.
Qed.

Lemma osc52_missing_separator_ignored_witness :
  logs (handleOsc (fun s => s) 52 "c?") (initial_world "hello" env_full)
       [logT "Malformed argument to OSC 52 (missing ';'): 'c?'"]
  /\ selection (selMgr (exec (handleOsc (fun s => s) 52 "c?")
                             (initial_world "hello" env_full))) = "hello".
Proof.
  assert (H : ~ In ";"%char (list_ascii_of_string "c?")).
  { simpl. intros [H|[H|[]]]; discriminate H. }
  destruct (osc52_missing_separator_ignored (fun s => s) "c?"
              (initial_world "hello" env_full) H) as (H1 & H2 & _).
  split; [exact H1|]. rewrite H2. reflexivity.
Defined.

(** C5: a command-52 payload with a [;] whose part [pd] after the first
    [;] is not "?" is base64-decoded and published through [setSelection]:
    the log gains the trace message and that one call, so nothing is written
    to the PTY, and the decoded text is the new selection content. *)
Theorem osc52_payload_installs_selection (dec : string -> string) (pc pd : string) (w : World) :
  ~ In ";"%char (list_ascii_of_string pc) ->
  pd <> "?" ->
  logs (handleOsc dec 52 (pc ++ ";" ++ pd)) w
       [logT ("OSC 52: pc='" ++ pc ++ "', pd='" ++ pd ++ "'");
        selMgr_setSelection CurrentTime (dec pd)]
  /\ selection (selMgr (exec (handleOsc dec 52 (pc ++ ";" ++ pd)) w)) = dec pd.
Proof.
  intros Hpc Hpd. change (pc ++ ";" ++ pd) with (pc ++ String ";" pd).
  rewrite (handleOsc_52_separator dec pc pd Hpc).
  apply String.eqb_neq in Hpd. rewrite Hpd.
  run. rewrite <- app_assoc. split; reflexivity.
Qed.

Lemma osc52_payload_installs_selection_witness :
  logs (handleOsc (fun s => s) 52 "c;aGk=;x") (initial_world "hello" env_full)
       [logT "OSC 52: pc='c', pd='aGk=;x'"; selMgr_setSelection CurrentTime "aGk=;x"]
  /\ selection (selMgr (exec (handleOsc (fun s => s) 52 "c;aGk=;x")
                             (initial_world "hello" env_full))) = "aGk=;x".
Proof.
  assert (H : ~ In ";"%char (list_ascii_of_string "c")).
  { simpl. intros [H|[]]; discriminate H. }
  assert (H' : "aGk=;x" <> "?") by discriminate.
  exact (osc52_payload_installs_selection (fun s => s) "c" "aGk=;x"
           (initial_world "hello" env_full) H H').
Defined.

(** C1: a command-52 payload whose part after the first [;] is exactly "?"
    requests the selection content; for the stored content [s] the handler
    hands to [writePty] exactly ESC ] 52 ; ; base64(s) ESC \ (no byte of it is
    cut off by the C-string conversion). For "hello" the payload between the
    second [;] and the terminator is [aGVsbG8=], also when "hello" has just
    been published with [setSelection]. *)
Theorem osc52_query_writes_reply (dec : string -> string) (pc : string) (w : World) :
  ~ In ";"%char (list_ascii_of_string pc) ->
  (exists n,
     logs (handleOsc dec 52 (pc ++ ";?")) w
          [logT ("OSC 52: pc='" ++ pc ++ "', pd='?'");
           selMgr_getSelection CurrentTime Osc52ReplyCallback;
           vt_writePty_str
             (ESC ++ "]52;;" ++ base64.encode (selection (selMgr w)) ++ ESC ++ "\") n])
  /\ base64.encode "hello" = "aGVsbG8="
  /\ (forall t, exists n,
        logs (SelMgr.setSelection t "hello" ;; handleOsc dec 52 (pc ++ ";?"))%M w
             [selMgr_setSelection t "hello";
              logT ("OSC 52: pc='" ++ pc ++ "', pd='?'");
              selMgr_getSelection CurrentTime Osc52ReplyCallback;
              vt_writePty_str (ESC ++ "]52;;aGVsbG8=" ++ ESC ++ "\") n]).
Proof.
  intros Hpc. rewrite (handleOsc_52_separator dec pc "?" Hpc).
  rewrite String.eqb_refl.
  split; [|split; [reflexivity|intros t]]; eexists; run;
    fold (osc52_reply (selection (selMgr w))); fold (osc52_reply "hello");
    rewrite osc52_reply_c_str; rewrite <- !app_assoc; reflexivity.
Qed.

Lemma osc52_query_writes_reply_witness :
  exists n,
    logs (handleOsc (fun s => s) 52 "c;?") (initial_world "hello" env_full)
         [logT "OSC 52: pc='c', pd='?'";
          selMgr_getSelection CurrentTime Osc52ReplyCallback;
          vt_writePty_str (ESC ++ "]52;;aGVsbG8=" ++ ESC ++ "\") n].
Proof.
  assert (H : ~ In ";"%char (list_ascii_of_string "c")).
  { simpl. intros [H|[]]; discriminate H. }
  exact (proj1 (osc52_query_writes_reply (fun s => s) "c"
                  (initial_world "hello" env_full) H)).
Defined.

(* ------------------------------------------------------------------ *)
(** ** x11Event *)

(** C7: on a SelectionClear event [x11Event] calls [selectClear] first and
    [onSelectionClear] second and nothing else; when the selection manager
    is notified the Selection Engine is already Idle with no highlight, and
    it still is when [x11Event] returns. *)
Theorem selection_clear_resets_engine_first (xic : bool) (pty_fd : Z) (hold : bool) (w : World) :
  logs (x11Event SelectionClear xic pty_fd hold) w
       [vt_selectClear; selMgr_onSelectionClear]
  /\ exec (x11Event SelectionClear xic pty_fd hold) w
     = exec SelMgr.onSelectionClear (exec Vt.selectClear w)
  /\ selectState (vt (exec Vt.selectClear w)) = Idle
  /\ highlight (vt (exec Vt.selectClear w)) = false
  /\ selectState (vt (exec (x11Event SelectionClear xic pty_fd hold) w)) = Idle
  /\ highlight (vt (exec (x11Event SelectionClear xic pty_fd hold) w)) = false
  /\ eval (x11Event SelectionClear xic pty_fd hold) w = mkX11Result false false hold.
Proof.
  unfold x11Event, x11Event_switch. run.
  rewrite andb_false_r. cbn [fst snd calls vt selectState highlight].
  rewrite <- app_assoc. repeat split.
Qed.

(** C6: on a release of button 1 or 3 [x11Event] calls [selectFinish], and
    calls [setSelection] with the extracted text exactly when [selectFinish]
    returned true; when it returned false nothing is published and the
    selection manager is as before. *)
Theorem button_release_publishes_iff_finished
    (button x y : Z) (time : Time) (xic : bool) (pty_fd : Z) (hold : bool) (w : World) :
  button = 1 \/ button = 3 ->
  let r := selectFinish_ret (env w) (List.length (calls w)) in
  let w' := exec (x11Event (ButtonRelease button x y time) xic pty_fd hold) w in
  logs (x11Event (ButtonRelease button x y time) xic pty_fd hold) w
       (vt_selectFinish (fst r) (snd r)
        :: if fst r then [selMgr_setSelection time (snd r)] else [])
  /\ (fst r = true -> selection (selMgr w') = snd r)
  /\ (fst r = false -> selMgr w' = selMgr w)
  /\ selectState (vt w') = Finished.
Proof.
  intros Hb r w'. subst w'.
  assert (Hsw : (button =? 1) || (button =? 3) = true)
    by (destruct Hb as [-> | ->]; reflexivity).
  unfold x11Event, x11Event_switch, buttonRelease. run. rewrite Hsw. run.
  fold r. destruct (fst r); run; rewrite andb_false_r; cbn [fst snd calls vt selMgr selectState selection];
    rewrite <- ?app_assoc; repeat split; intros; try discriminate; reflexivity.
Qed.

Lemma button_release_publishes_iff_finished_witness :
  logs (x11Event (ButtonRelease 1 30 40 1000) true 5 true) (initial_world "old" env_full)
       [vt_selectFinish true "ab"; selMgr_setSelection 1000 "ab"]
  /\ logs (x11Event (ButtonRelease 3 30 40 1000) true 5 true)
          (initial_world "old" env_empty_selection)
          [vt_selectFinish false ""].
Proof.
  split.
  - exact (proj1 (button_release_publishes_iff_finished 1 30 40 1000 true 5 true
                    (initial_world "old" env_full) (or_introl eq_refl))).
  - exact (proj1 (button_release_publishes_iff_finished 3 30 40 1000 true 5 true
                    (initial_world "old" env_empty_selection) (or_intror eq_refl))).
Defined.

Lemma KEYIGN_clause (ks : KeySym) :
  In ks KEYIGN ->
  keysend KEYSEND ks = None
  /\ (ks =? XK_Insert) || (ks =? XK_KP_Insert) = false
  /\ (ks =? XK_space) || (ks =? XK_KP_Space) = false
  /\ keyign ks = true.
Proof.
  intros H. unfold KEYIGN in H.
  repeat (destruct H as [<-|H]; [repeat split; reflexivity|]). destruct H.
Qed.

(** C10: a key press whose keysym is a bare modifier key (Shift, Control,
    Meta, Alt, Super or Hyper, left or right, Caps Lock or Shift Lock) makes
    no call of [writePty]: the writes in the log are those that were there
    before, and [x11Event] returns false. *)
Theorem modifier_key_writes_nothing
    (ks : KeySym) (state : Z) (time : Time) (text : string) (overflow filtered : bool)
    (xic : bool) (pty_fd : Z) (hold : bool) (w : World) :
  In ks [XK_Shift_L; XK_Shift_R; XK_Control_L; XK_Control_R;
         XK_Caps_Lock; XK_Shift_Lock; XK_Meta_L; XK_Meta_R;
         XK_Alt_L; XK_Alt_R; XK_Super_L; XK_Super_R; XK_Hyper_L; XK_Hyper_R] ->
  let e := KeyPress state time (mkKeyLookup ks text overflow filtered) in
  filter is_writePty (calls (exec (x11Event e xic pty_fd hold) w))
  = filter is_writePty (calls w)
  /\ returned (eval (x11Event e xic pty_fd hold) w) = false.
Proof.
  intros H e. subst e. destruct (KEYIGN_clause ks H) as (Hsend & Hins & Hsp & Hign).
  unfold x11Event, x11Event_switch, keyPress. cbn [lk_ks lk_text lk_overflow lk_filtered].
  rewrite Hsend, Hins, Hsp, Hign. cbn [andb].
  destruct (xic && overflow); run; [rewrite andb_false_r|rewrite andb_true_r];
    [|destruct (exposed (statics w))]; run;
    rewrite ?filter_app; cbn [filter is_writePty]; rewrite ?app_nil_r; split; reflexivity.
Qed.

Lemma modifier_key_writes_nothing_witness :
  filter is_writePty
    (calls (exec (x11Event (KeyPress 1 7 (mkKeyLookup XK_Shift_L "" false false)) true 5 false)
                 (initial_world "" env_full)))
  = [].
Proof.
  assert (H : In XK_Shift_L
                [XK_Shift_L; XK_Shift_R; XK_Control_L; XK_Control_R;
                 XK_Caps_Lock; XK_Shift_Lock; XK_Meta_L; XK_Meta_R;
                 XK_Alt_L; XK_Alt_R; XK_Super_L; XK_Super_R; XK_Hyper_L; XK_Hyper_R])
    by (left; reflexivity).
  exact (proj1 (modifier_key_writes_nothing XK_Shift_L 1 7 "" false false true 5 false
                  (initial_world "" env_full) H)).
Defined.

Lemma x11Pending_next (e : XEvent) (rest : list XEvent) (xic : bool) (pty_fd : Z)
    (hold : bool) (w w1 : World) (r : X11Result) :
  x11Event e xic pty_fd hold (log_call (XNextEvent e) w) = (r, w1) ->
  returned r = false ->
  x11Pending (e :: rest) xic pty_fd hold w = x11Pending rest xic pty_fd (holdPtyIn r) w1.
Proof.
  intros E Hr. cbn [x11Pending]. unfold bind at 1. unfold call, modify.
  unfold bind at 1. rewrite E, Hr. reflexivity.
Qed.

Lemma x11Event_press_1 (x y : Z) (time : Time) (xic : bool) (pty_fd : Z) (hold : bool) (w : World) :
  exists w1,
    x11Event (ButtonPress 1 x y time) xic pty_fd hold w = (mkX11Result false false true, w1)
    /\ calls w1 = (calls w ++ [vt_selectStart x y (cycleSnapTo_flag (statics w) 1 time)])%list
    /\ statics w1 = statics w
    /\ selectSnapTo (vt w1)
       = if cycleSnapTo_flag (statics w) 1 time
         then Vt.cycleSelectSnapTo (selectSnapTo (vt w)) else selectSnapTo (vt w).
Proof.
  eexists. unfold x11Event, x11Event_switch, buttonPress. run.
  cbn [Z.eqb Pos.eqb]. run. rewrite andb_false_r.
  split; [reflexivity|]. cbn [calls statics vt selectSnapTo]. repeat split.
Qed.

Lemma x11Event_press_3 (x y : Z) (time : Time) (xic : bool) (pty_fd : Z) (hold : bool) (w : World) :
  exists w1,
    x11Event (ButtonPress 3 x y time) xic pty_fd hold w = (mkX11Result false false true, w1)
    /\ calls w1 = (calls w ++ [vt_selectExtend x y (cycleSnapTo_flag (statics w) 3 time)])%list.
Proof.
  eexists. unfold x11Event, x11Event_switch, buttonPress. run.
  cbn [Z.eqb Pos.eqb]. run. rewrite andb_false_r.
  split; reflexivity.
Qed.

Lemma x11Event_release (button x y : Z) (time : Time) (xic : bool) (pty_fd : Z) (hold : bool) (w : World) :
  exists r w1,
    x11Event (ButtonRelease button x y time) xic pty_fd hold w = (r, w1)
    /\ returned r = false
    /\ statics w1 = mkStatics (exposed (statics w)) time button
    /\ selectSnapTo (vt w1) = selectSnapTo (vt w).
Proof.
  unfold x11Event, x11Event_switch, buttonRelease. run.
  destruct ((button =? 1) || (button =? 3)); run;
    [destruct (fst (selectFinish_ret (env w) (Datatypes.length (calls w))))
    |destruct (button =? 2); [|destruct (button =? 4); [|destruct (button =? 5)]]];
    run; rewrite andb_false_r; do 2 eexists; repeat split.
Qed.

Lemma log_call_statics (c : Call) (w : World) : statics (log_call c w) = statics w.
Proof. reflexivity. Qed.

Lemma log_call_vt (c : Call) (w : World) : vt (log_call c w) = vt w.
Proof. reflexivity. Qed.

(** A click of button 1, press then release, before further events. *)
Lemma x11Pending_click (x y x' y' : Z) (tp tr : Time) (rest : list XEvent)
    (xic : bool) (pty_fd : Z) (hold : bool) (w : World) :
  exists w2,
    x11Pending (ButtonPress 1 x y tp :: ButtonRelease 1 x' y' tr :: rest) xic pty_fd hold w
    = x11Pending rest xic pty_fd false w2
    /\ statics w2 = mkStatics (exposed (statics w)) tr 1
    /\ selectSnapTo (vt w2)
       = if cycleSnapTo_flag (statics w) 1 tp
         then Vt.cycleSelectSnapTo (selectSnapTo (vt w)) else selectSnapTo (vt w).
Proof.
  destruct (x11Event_press_1 x y tp xic pty_fd hold
              (log_call (XNextEvent (ButtonPress 1 x y tp)) w))
    as (w1 & E1 & _ & Hst1 & Hsn1).
  destruct (x11Event_release 1 x' y' tr xic pty_fd true
              (log_call (XNextEvent (ButtonRelease 1 x' y' tr)) w1))
    as (r & w2 & E2 & Hr & Hst2 & Hsn2).
  exists w2. rewrite (x11Pending_next _ _ _ _ _ _ _ _ E1 eq_refl).
  cbn [holdPtyIn]. rewrite (x11Pending_next _ _ _ _ _ _ _ _ E2 Hr).
  assert (Hh : holdPtyIn r = false).
  { revert E2. unfold x11Event, x11Event_switch, buttonRelease. run.
    cbn [Z.eqb Pos.eqb orb]. run.
    destruct (fst (selectFinish_ret _ _)); run; rewrite andb_false_r;
      intros E; injection E as <- _; reflexivity. }
  rewrite Hh. split; [reflexivity|].
  rewrite Hst2, Hsn2, log_call_statics, log_call_vt, Hst1, Hsn1, log_call_statics, log_call_vt.
  split; reflexivity.
Qed.

Lemma x11Pending_last_press (x y : Z) (tp : Time)
    (xic : bool) (pty_fd : Z) (hold : bool) (w : World) :
  selectSnapTo (vt (exec (x11Pending [ButtonPress 1 x y tp] xic pty_fd hold) w))
  = if cycleSnapTo_flag (statics w) 1 tp
    then Vt.cycleSelectSnapTo (selectSnapTo (vt w)) else selectSnapTo (vt w).
Proof.
  destruct (x11Event_press_1 x y tp xic pty_fd hold
              (log_call (XNextEvent (ButtonPress 1 x y tp)) w))
    as (w1 & E1 & _ & Hst1 & Hsn1).
  unfold exec. rewrite (x11Pending_next _ _ _ _ _ _ _ _ E1 eq_refl).
  cbn [x11Pending ret snd]. rewrite Hsn1, log_call_statics, log_call_vt. reflexivity.
Qed.

Lemma cycleSnapTo_flag_repeat (e : bool) (tr tp : Time) :
  ulong_sub tp tr < Multi_Click_Threshold_Ms ->
  cycleSnapTo_flag (mkStatics e tr 1) 1 tp = true.
Proof.
  intros H. unfold cycleSnapTo_flag. cbn [lastButtonReleased lastButtonReleasedAt].
  apply Z.ltb_lt in H. rewrite H. reflexivity.
Qed.

Lemma ulong_sub_in_range (a b : Z) :
  0 <= b <= a -> a < 2 ^ 64 -> ulong_sub a b = a - b.
Proof. intros H1 H2. unfold ulong_sub. apply Z.mod_small. lia. Qed.

(** C3, as the code has it: the [cycleSnapTo] flag passed to [selectStart]
    (button 1) or [selectExtend] (button 3) is true exactly when the press
    repeats the button released last less than 250 ms (in unsigned
    arithmetic) after that release; the pointer coordinate plays no part,
    and a press of another button calls neither.
    Starting at character granularity with a first press that does not meet
    the condition, three further presses of button 1 that meet it, at any
    coordinates, give word, line and character again. *)
Theorem cycleSnapTo_repeats_button_in_time (xic : bool) (pty_fd : Z) :
  (forall x y time hold w,
      logs (x11Event (ButtonPress 1 x y time) xic pty_fd hold) w
           [vt_selectStart x y (cycleSnapTo_flag (statics w) 1 time)]
      /\ logs (x11Event (ButtonPress 3 x y time) xic pty_fd hold) w
              [vt_selectExtend x y (cycleSnapTo_flag (statics w) 3 time)])
  /\ (forall button x y time hold w,
        button <> 1 -> button <> 3 ->
        logs (x11Event (ButtonPress button x y time) xic pty_fd hold) w [])
  /\ (forall button x y time hold w,
        statics (exec (x11Event (ButtonRelease button x y time) xic pty_fd hold) w)
        = mkStatics (exposed (statics w)) time button)
  /\ (forall st button time,
        cycleSnapTo_flag st button time = true
        <-> button = lastButtonReleased st
            /\ ulong_sub time (lastButtonReleasedAt st) < 250)
  /\ (forall st time,
        0 <= lastButtonReleasedAt st <= time -> time < 2 ^ 64 ->
        ulong_sub time (lastButtonReleasedAt st) = time - lastButtonReleasedAt st)
  /\ (forall w hold c1 c1' c2 c2' c3 c3' c4 t1 r1 t2 r2 t3 r3 t4,
        selectSnapTo (vt w) = SnapChar ->
        cycleSnapTo_flag (statics w) 1 t1 = false ->
        ulong_sub t2 r1 < 250 -> ulong_sub t3 r2 < 250 -> ulong_sub t4 r3 < 250 ->
        snap_after [press1 c1 t1] xic pty_fd hold w = SnapChar
        /\ snap_after [press1 c1 t1; release1 c1' r1; press1 c2 t2] xic pty_fd hold w
           = SnapWord
        /\ snap_after [press1 c1 t1; release1 c1' r1; press1 c2 t2; release1 c2' r2;
                       press1 c3 t3] xic pty_fd hold w
           = SnapLine
        /\ snap_after [press1 c1 t1; release1 c1' r1; press1 c2 t2; release1 c2' r2;
                       press1 c3 t3; release1 c3' r3; press1 c4 t4] xic pty_fd hold w
           = SnapChar).
Proof.
  split; [|split; [|split; [|split; [|split]]]].
  - intros x y time hold w. unfold logs, exec.
    destruct (x11Event_press_1 x y time xic pty_fd hold w) as (w1 & E1 & C1 & _).
    destruct (x11Event_press_3 x y time xic pty_fd hold w) as (w3 & E3 & C3).
    rewrite E1, E3. split; assumption.
  - intros button x y time hold w H1 H3.
    apply Z.eqb_neq in H1. apply Z.eqb_neq in H3.
    unfold x11Event, x11Event_switch, buttonPress. run. rewrite H1, H3. run.
    rewrite andb_false_r. cbn [snd calls]. now rewrite app_nil_r.
  - intros button x y time hold w. unfold exec.
    destruct (x11Event_release button x y time xic pty_fd hold w)
      as (r & w1 & E & _ & Hst & _). rewrite E. exact Hst.
  - intros st button time. unfold cycleSnapTo_flag, Multi_Click_Threshold_Ms.
    rewrite andb_true_iff, Z.eqb_eq, Z.ltb_lt. reflexivity.
  - intros st time H1 H2. now apply ulong_sub_in_range.
  - intros w hold c1 c1' c2 c2' c3 c3' c4 t1 r1 t2 r2 t3 r3 t4 Hsnap Hfirst H2 H3 H4.
    unfold snap_after, press1, release1.
    split; [rewrite x11Pending_last_press, Hfirst; exact Hsnap|].
    destruct (x11Pending_click (fst c1) (snd c1) (fst c1') (snd c1') t1 r1
                [] xic pty_fd hold w) as (wa & _ & Hsta & Hsna).
    rewrite Hfirst, Hsnap in Hsna.
    assert (Hclick : forall rest,
               exists w2, x11Pending (ButtonPress 1 (fst c1) (snd c1) t1
                                      :: ButtonRelease 1 (fst c1') (snd c1') r1 :: rest)
                            xic pty_fd hold w
                          = x11Pending rest xic pty_fd false w2
                          /\ statics w2 = mkStatics (exposed (statics w)) r1 1
                          /\ selectSnapTo (vt w2) = SnapChar).
    { intros rest.
      destruct (x11Pending_click (fst c1) (snd c1) (fst c1') (snd c1') t1 r1
                  rest xic pty_fd hold w) as (w2 & E & Hst & Hsn).
      exists w2. rewrite Hfirst, Hsnap in Hsn. auto. }
    split; [|split].
    + destruct (Hclick [ButtonPress 1 (fst c2) (snd c2) t2]) as (w2 & E & Hst & Hsn).
      unfold exec. rewrite E. fold (exec (x11Pending [ButtonPress 1 (fst c2) (snd c2) t2]
                                            xic pty_fd false) w2).
      rewrite x11Pending_last_press, Hst, cycleSnapTo_flag_repeat, Hsn by exact H2.
      reflexivity.
    + destruct (Hclick [ButtonPress 1 (fst c2) (snd c2) t2;
                        ButtonRelease 1 (fst c2') (snd c2') r2;
                        ButtonPress 1 (fst c3) (snd c3) t3]) as (w2 & E & Hst & Hsn).
      unfold exec. rewrite E.
      destruct (x11Pending_click (fst c2) (snd c2) (fst c2') (snd c2') t2 r2
                  [ButtonPress 1 (fst c3) (snd c3) t3] xic pty_fd false w2)
        as (w3 & E3 & Hst3 & Hsn3).
      rewrite E3. rewrite Hst, cycleSnapTo_flag_repeat, Hsn in Hsn3 by exact H2.
      fold (exec (x11Pending [ButtonPress 1 (fst c3) (snd c3) t3] xic pty_fd false) w3).
      rewrite x11Pending_last_press, Hst3, cycleSnapTo_flag_repeat, Hsn3 by exact H3.
      reflexivity.
    + destruct (Hclick [ButtonPress 1 (fst c2) (snd c2) t2;
                        ButtonRelease 1 (fst c2') (snd c2') r2;
                        ButtonPress 1 (fst c3) (snd c3) t3;
                        ButtonRelease 1 (fst c3') (snd c3') r3;
                        ButtonPress 1 (fst c4) (snd c4) t4]) as (w2 & E & Hst & Hsn).
      unfold exec. rewrite E.
      destruct (x11Pending_click (fst c2) (snd c2) (fst c2') (snd c2') t2 r2
                  [ButtonPress 1 (fst c3) (snd c3) t3;
                   ButtonRelease 1 (fst c3') (snd c3') r3;
                   ButtonPress 1 (fst c4) (snd c4) t4] xic pty_fd false w2)
        as (w3 & E3 & Hst3 & Hsn3).
      rewrite E3. rewrite Hst, cycleSnapTo_flag_repeat, Hsn in Hsn3 by exact H2.
      destruct (x11Pending_click (fst c3) (snd c3) (fst c3') (snd c3') t3 r3
                  [ButtonPress 1 (fst c4) (snd c4) t4] xic pty_fd false w3)
        as (w4 & E4 & Hst4 & Hsn4).
      rewrite E4. rewrite Hst3, cycleSnapTo_flag_repeat, Hsn3 in Hsn4 by exact H3.
      fold (exec (x11Pending [ButtonPress 1 (fst c4) (snd c4) t4] xic pty_fd false) w4).
      rewrite x11Pending_last_press, Hst4, cycleSnapTo_flag_repeat, Hsn4 by exact H4.
      reflexivity.
Qed.

Lemma cycleSnapTo_repeats_button_in_time_witness :
  snap_after [press1 (10, 10) 1000; release1 (10, 10) 1050;
              press1 (10, 10) 1200; release1 (10, 10) 1250;
              press1 (10, 10) 1400; release1 (10, 10) 1450;
              press1 (10, 10) 1600] true 5 false (initial_world "" env_full)
  = SnapChar
  /\ snap_after [press1 (10, 10) 1000; release1 (10, 10) 1050;
                 press1 (10, 10) 1200; release1 (10, 10) 1250;
                 press1 (10, 10) 1400] true 5 false (initial_world "" env_full)
     = SnapLine.
Proof.
  destruct (proj2 (proj2 (proj2 (proj2 (proj2
                (cycleSnapTo_repeats_button_in_time true 5)))))
              (initial_world "" env_full) false
              (10, 10) (10, 10) (10, 10) (10, 10) (10, 10) (10, 10) (10, 10)
              1000 1050 1200 1250 1400 1450 1600)
    as (_ & _ & H3 & H4); try reflexivity.
  split; assumption.
Defined.

(** C3, the claim as the spec states it, fails: after a release of button 1
    at (10, 10), a press of button 1 at (200, 100) 100 ms later passes
    [cycleSnapTo = true] to [selectStart], although the coordinate differs
    and the flag in the words of the spec is false. *)
Lemma cycleSnapTo_ignores_coordinate :
  logs (x11Pending [ButtonRelease 1 10 10 1000; ButtonPress 1 200 100 1100] true 5 false)
       (initial_world "" env_full)
       [XNextEvent (ButtonRelease 1 10 10 1000);
        vt_selectFinish true "ab"; selMgr_setSelection 1000 "ab";
        XNextEvent (ButtonPress 1 200 100 1100);
        vt_selectStart 200 100 true]
  /\ spec_cycleSnapTo 1 10 10 1000 1 200 100 1100 = false.
Proof. split; reflexivity. Qed.

(* ------------------------------------------------------------------ *)
(** ** The call log of x11Event *)

Lemma after_first_app (p : Call -> bool) (a b : list Call) :
  after_first p (a ++ b)
  = match after_first p a with
    | Some post => Some (post ++ b)%list
    | None => after_first p b
    end.
Proof.
  induction a as [|c a IH]; cbn [after_first app]; [reflexivity|].
  destruct (p c); [reflexivity|exact IH].
Qed.

Lemma quiet_app (a b : list Call) : quiet (a ++ b) = quiet a && quiet b.
Proof. apply forallb_app. Qed.

Lemma quiet_no_hangup (l : list Call) :
  quiet l = true -> after_first reports_hangup l = None.
Proof.
  induction l as [|c l IH]; cbn [quiet forallb after_first]; [reflexivity|].
  intros H. apply andb_prop in H as [Hc Hl].
  destruct c; try discriminate Hc; exact (IH Hl).
Qed.

Lemma quiet_excluded (T : Type) (track : XEvent -> T -> T) (held : T -> bool)
    (pty_fd : Z) (st : T) (l rest : list Call) :
  quiet l = true ->
  pty_excluded_while T track held pty_fd st (l ++ rest)
  = pty_excluded_while T track held pty_fd st rest.
Proof.
  induction l as [|c l IH]; cbn [quiet forallb app]; [reflexivity|].
  intros H. apply andb_prop in H as [Hc Hl].
  destruct c; try discriminate Hc; cbn [pty_excluded_while]; exact (IH Hl).
Qed.

Lemma keyPress_log (state : Z) (time : Time) (lk : KeyLookup) (xic hold : bool) (w : World) :
  exists new,
    calls (snd (keyPress state time lk xic hold w)) = (calls w ++ new)%list
    /\ quiet new = true
    /\ match fst (keyPress state time lk xic hold w) with
       | Break _ h => h = hold /\ after_first short_text_write new = None
       | Return v d h => h = hold /\ v = true /\ d = false /\ exists c, new = [c]
       end.
Proof.
  unfold keyPress.
  destruct (xic && lk_overflow lk).
  { run. eexists; split; [rewrite <- ?app_assoc; reflexivity|]. repeat split. }
  destruct (((lk_ks lk =? XK_Insert) || (lk_ks lk =? XK_KP_Insert)) && (state =? ShiftMask)).
  { run. eexists; split; [rewrite <- ?app_assoc; reflexivity|]. repeat split. }
  destruct (((lk_ks lk =? XK_space) || (lk_ks lk =? XK_KP_Space))
            && negb (Z.land state (Z.lor Button1Mask Button3Mask) =? 0)).
  { run. eexists; split; [rewrite <- ?app_assoc; reflexivity|]. repeat split. }
  destruct (keysend KEYSEND (lk_ks lk)).
  { run. eexists; split; [rewrite <- ?app_assoc; reflexivity|]. repeat split. }
  destruct (keyign (lk_ks lk)).
  { run. exists []. rewrite app_nil_r. repeat split. }
  destruct (lk_filtered lk).
  { run. exists []. rewrite app_nil_r. repeat split. }
  destruct (strlen (lk_text lk) >? 1).
  - run. set (n := writePty_ret (env w) (Datatypes.length (calls w))).
    destruct (Z.ltb_spec n (strlen (lk_text lk))) as [Hlt|Hge]; run;
      (eexists; split; [reflexivity|]); (split; [reflexivity|]).
    + repeat split. eexists; reflexivity.
    + split; [reflexivity|]. cbn [after_first short_text_write].
      pose proof (c_str_length (lk_text lk)) as Hc.
      destruct (Z.ltb_spec n (strlen (c_str (lk_text lk)))); [lia|reflexivity].
  - run. set (n := writePty_ret (env w) (Datatypes.length (calls w))).
    destruct (Z.ltb_spec n 1) as [Hlt|Hge]; run;
      (eexists; split; [reflexivity|]); (split; [reflexivity|]).
    + repeat split. eexists; reflexivity.
    + split; [reflexivity|]. cbn [after_first short_text_write].
      destruct (Z.ltb_spec n 1); [lia|reflexivity].
Qed.

Lemma x11Event_switch_log (event : XEvent) (xic hold : bool) (w : World) :
  exists new,
    calls (snd (x11Event_switch event xic hold w)) = (calls w ++ new)%list
    /\ quiet new = true
    /\ match fst (x11Event_switch event xic hold w) with
       | Break _ h =>
           h = until_next_release event hold
           /\ after_first short_text_write new = None
       | Return v d h =>
           h = until_next_release event hold
           /\ (forall post, after_first short_text_write new = Some post ->
                            post = [] /\ v = true /\ d = false)
       end.
Proof.
  destruct event; cbn [x11Event_switch until_next_release];
    try (run; eexists; split;
         [first [symmetry; apply app_nil_r | rewrite <- ?app_assoc; reflexivity]|];
         repeat split; intros; discriminate).
  - (* KeyPress *)
    destruct (keyPress_log state time lookup xic hold w) as (new & Hc & Hq & Hf).
    exists new. split; [exact Hc|]. split; [exact Hq|].
    destruct (fst (keyPress state time lookup xic hold w)).
    + exact Hf.
    + destruct Hf as (-> & -> & -> & c & ->). split; [reflexivity|].
      intros post. cbn [after_first]. destruct (short_text_write c); [|discriminate].
      intros [= <-]. repeat split.
  - (* ButtonPress *)
    unfold buttonPress. run.
    destruct (button =? 1); [|destruct (button =? 3)]; run;
      (eexists; split;
       [first [symmetry; apply app_nil_r | rewrite <- ?app_assoc; reflexivity]|]);
      repeat split.
  - (* ButtonRelease *)
    unfold buttonRelease. run.
    destruct (button =? 1); [|destruct (button =? 3)]; cbn [orb]; run;
      [destruct (fst (selectFinish_ret (env w) (Datatypes.length (calls w)))); run
      |destruct (fst (selectFinish_ret (env w) (Datatypes.length (calls w)))); run
      |destruct (button =? 2); [|destruct (button =? 4); [|destruct (button =? 5)]]; run];
      (eexists; split;
       [first [symmetry; apply app_nil_r | rewrite <- ?app_assoc; reflexivity]|]);
      repeat split.
Qed.

Lemma x11Event_log (event : XEvent) (xic : bool) (pty_fd : Z) (hold : bool) (w : World) :
  exists new,
    calls (exec (x11Event event xic pty_fd hold) w) = (calls w ++ new)%list
    /\ quiet new = true
    /\ holdPtyIn (eval (x11Event event xic pty_fd hold) w) = until_next_release event hold
    /\ (forall post, after_first short_text_write new = Some post ->
                     post = []
                     /\ returned (eval (x11Event event xic pty_fd hold) w) = true
                     /\ destroyed (eval (x11Event event xic pty_fd hold) w) = false).
Proof.
  destruct (x11Event_switch_log event xic hold w) as (new & Hc & Hq & Hf).
  unfold exec, eval, x11Event, bind.
  destruct (x11Event_switch event xic hold w) as [f w1]. cbn [fst snd] in Hc, Hf.
  destruct f as [redraw h|v d h].
  - destruct Hf as [-> Hs]. unfold get.
    destruct (exposed (statics w1) && redraw); run.
    + exists (new ++ [vt_redraw])%list. rewrite Hc, <- app_assoc.
      split; [reflexivity|]. rewrite quiet_app, Hq. split; [reflexivity|].
      split; [reflexivity|]. intros post. rewrite after_first_app, Hs. discriminate.
    + exists new. split; [exact Hc|]. split; [exact Hq|]. split; [reflexivity|].
      intros post. rewrite Hs. discriminate.
  - destruct Hf as [-> Hs]. run. exists new. auto.
Qed.

(* ------------------------------------------------------------------ *)
(** ** The call log of eventLoop *)

Lemma x11Pending_stop (e : XEvent) (rest : list XEvent) (xic : bool) (pty_fd : Z)
    (hold : bool) (w w1 : World) (r : X11Result) :
  x11Event e xic pty_fd hold (log_call (XNextEvent e) w) = (r, w1) ->
  returned r = true ->
  x11Pending (e :: rest) xic pty_fd hold w = ((Some (destroyed r), holdPtyIn r), w1).
Proof.
  intros E Hr. cbn [x11Pending]. unfold bind at 1. unfold call, modify.
  unfold bind at 1. rewrite E, Hr. reflexivity.
Qed.

Lemma x11Pending_log (queue : list XEvent) (xic : bool) (pty_fd : Z) (hold : bool) (w : World) :
  exists new,
    calls (exec (x11Pending queue xic pty_fd hold) w) = (calls w ++ new)%list
    /\ after_first reports_hangup new = None
    /\ pty_excluded_while bool until_next_release (fun h => h) pty_fd hold new
       = Some (snd (eval (x11Pending queue xic pty_fd hold) w))
    /\ (forall post, after_first short_text_write new = Some post ->
                     post = []
                     /\ fst (eval (x11Pending queue xic pty_fd hold) w) = Some false).
Proof.
  revert hold w. induction queue as [|e rest IH]; intros hold w.
  - exists []. unfold exec, eval. cbn. rewrite app_nil_r. repeat split; intros; discriminate.
  - destruct (x11Event_log e xic pty_fd hold (log_call (XNextEvent e) w))
      as (new1 & Hc1 & Hq1 & Hh1 & Hs1).
    unfold exec, eval in *.
    destruct (x11Event e xic pty_fd hold (log_call (XNextEvent e) w)) as [r w1] eqn:E.
    cbn [fst snd] in Hc1, Hh1, Hs1. cbn [log_call calls] in Hc1.
    destruct (returned r) eqn:Hr.
    + rewrite (x11Pending_stop _ _ _ _ _ _ _ _ E Hr). cbn [fst snd].
      exists (XNextEvent e :: new1). rewrite Hc1, <- app_assoc.
      split; [reflexivity|]. split.
      { cbn [after_first reports_hangup]. now apply quiet_no_hangup. }
      split.
      { cbn [pty_excluded_while]. rewrite <- (app_nil_r new1), quiet_excluded by exact Hq1.
        cbn [pty_excluded_while]. now rewrite Hh1. }
      intros post. cbn [after_first short_text_write]. intros Hp.
      destruct (Hs1 post Hp) as (-> & _ & ->). split; reflexivity.
    + rewrite (x11Pending_next _ _ _ _ _ _ _ _ E Hr).
      destruct (IH (holdPtyIn r) w1) as (new2 & Hc2 & Hg2 & He2 & Hs2).
      exists (XNextEvent e :: new1 ++ new2)%list. rewrite Hc2, Hc1, <- !app_assoc.
      split; [reflexivity|]. split.
      { cbn [after_first reports_hangup]. rewrite after_first_app.
        now rewrite (quiet_no_hangup _ Hq1). }
      split.
      { cbn [pty_excluded_while]. rewrite quiet_excluded by exact Hq1.
        rewrite <- Hh1. exact He2. }
      intros post. cbn [after_first short_text_write]. rewrite after_first_app.
      destruct (after_first short_text_write new1) as [p1|] eqn:Ea.
      * destruct (Hs1 p1 eq_refl) as (_ & Hr' & _). congruence.
      * exact (Hs2 post).
Qed.

Lemma eventLoop_from_round (r : PollRound) (rest : list PollRound) (xic : bool)
    (pty_fd : Z) (hold : bool) (w : World) :
  let fd0 := if hold then - pty_fd else pty_fd in
  let revents0 := if fd0 <? 0 then 0 else pty_revents r in
  let w0 := log_call (sys_poll fd0 (poll_ret r) revents0 (x11_revents r)) w in
  eventLoop_from (r :: rest) xic pty_fd hold w
  = if poll_ret r <? 0 then (Some false, w0)
    else if negb (Z.land revents0 POLLHUP =? 0) then (Some false, w0)
    else
      let w1 := if negb (Z.land revents0 POLLIN =? 0) then log_call vt_readPty w0 else w0 in
      let q := if negb (Z.land (x11_revents r) POLLIN =? 0)
               then x11Pending (pending r) xic pty_fd hold w1
               else ((None, hold), w1) in
      match fst (fst q) with
      | Some d => (Some d, snd q)
      | None => eventLoop_from rest xic pty_fd (snd (fst q)) (snd q)
      end.
Proof.
  intros fd0 revents0 w0. cbn [eventLoop_from]. unfold poll.
  fold fd0. fold revents0. unfold bind at 1. unfold bind at 1.
  unfold call at 1, modify at 1, ret at 1. fold w0.
  destruct (poll_ret r <? 0); [reflexivity|].
  destruct (negb (Z.land revents0 POLLHUP =? 0)); [reflexivity|].
  unfold bind at 1.
  destruct (negb (Z.land revents0 POLLIN =? 0));
    destruct (negb (Z.land (x11_revents r) POLLIN =? 0));
    unfold Vt.readPty, call, modify, ret; unfold bind at 1; cbn [fst snd];
    try destruct (x11Pending (pending r) xic pty_fd hold _) as [[[d|] h] w2];
    reflexivity.
Qed.

Lemma excluded_app (T : Type) (track : XEvent -> T -> T) (held : T -> bool)
    (pty_fd : Z) (st : T) (a b : list Call) :
  pty_excluded_while T track held pty_fd st (a ++ b)
  = match pty_excluded_while T track held pty_fd st a with
    | Some st' => pty_excluded_while T track held pty_fd st' b
    | None => None
    end.
Proof.
  revert st. induction a as [|c a IH]; intros st; cbn [app pty_excluded_while];
    [reflexivity|].
  destruct c; try apply IH.
  - destruct (held st); [|apply IH].
    reflexivity.
  - destruct (held st).
    + destruct ((fd0 <? 0) && (revents0 =? 0)); [apply IH|reflexivity].
    + destruct (fd0 =? pty_fd); [apply IH|reflexivity].
Qed.

(** What [poll] is handed and what it reports for the PTY entry when
    [holdPtyIn] has the value [hold]. *)
Lemma held_poll_excluded (pty_fd : Z) (hold : bool) (r : PollRound) :
  0 < pty_fd ->
  let fd0 := if hold then - pty_fd else pty_fd in
  let revents0 := if fd0 <? 0 then 0 else pty_revents r in
  (if hold then (fd0 <? 0) && (revents0 =? 0) else fd0 =? pty_fd) = true
  /\ (negb (Z.land revents0 POLLIN =? 0) = true -> hold = false).
Proof.
  intros Hfd fd0 revents0. subst fd0 revents0. destruct hold.
  - assert (H : (- pty_fd <? 0) = true) by (apply Z.ltb_lt; lia).
    rewrite H. split; [reflexivity|]. cbn. discriminate.
  - split; [apply Z.eqb_refl|reflexivity].
Qed.

Lemma eventLoop_from_log (rounds : list PollRound) (xic : bool) (pty_fd : Z)
    (hold : bool) (w : World) :
  exists new,
    calls (exec (eventLoop_from rounds xic pty_fd hold) w) = (calls w ++ new)%list
    /\ (forall post, after_first reports_hangup new = Some post ->
                     post = [] /\ eval (eventLoop_from rounds xic pty_fd hold) w = Some false)
    /\ (0 < pty_fd ->
        exists hold',
          pty_excluded_while bool until_next_release (fun h => h) pty_fd hold new
          = Some hold')
    /\ (forall post, after_first short_text_write new = Some post ->
                     post = [] /\ eval (eventLoop_from rounds xic pty_fd hold) w = Some false).
Proof.
  revert hold w. induction rounds as [|r rest IH]; intros hold w.
  { exists []. unfold exec, eval. cbn. rewrite app_nil_r.
    repeat split; intros; try discriminate. now exists hold. }
  unfold exec, eval. rewrite eventLoop_from_round.
  set (fd0 := if hold then - pty_fd else pty_fd).
  set (revents0 := if fd0 <? 0 then 0 else pty_revents r).
  set (p := sys_poll fd0 (poll_ret r) revents0 (x11_revents r)).
  assert (Hp : 0 < pty_fd ->
               forall l, pty_excluded_while bool until_next_release (fun h => h) pty_fd hold (p :: l)
                         = pty_excluded_while bool until_next_release (fun h => h) pty_fd hold l).
  { intros Hfd l. destruct (held_poll_excluded pty_fd hold r Hfd) as [H _].
    fold fd0 in H. fold revents0 in H. subst p. cbn [pty_excluded_while].
    destruct hold; rewrite H; reflexivity. }
  assert (Hstop : exists new,
             calls (log_call p w) = (calls w ++ new)%list
             /\ (forall post, after_first reports_hangup new = Some post -> post = [])
             /\ (0 < pty_fd ->
                 exists hold',
                   pty_excluded_while bool until_next_release (fun h => h) pty_fd hold new
                   = Some hold')
             /\ after_first short_text_write new = None).
  { exists [p]. split; [reflexivity|]. split.
    - intros post. cbn [after_first]. destruct (reports_hangup p); [|discriminate].
      now intros [= <-].
    - split; [|reflexivity]. intros Hfd. exists hold. now rewrite Hp. }
  destruct (poll_ret r <? 0).
  { destruct Hstop as (new & Hc & Hh & He & Hs). exists new. cbn [fst snd].
    split; [exact Hc|]. split; [intros post H; split; [exact (Hh post H)|reflexivity]|].
    split; [exact He|]. intros post. rewrite Hs. discriminate. }
  destruct (negb (Z.land revents0 POLLHUP =? 0)) eqn:Hhup.
  { destruct Hstop as (new & Hc & Hh & He & Hs). exists new. cbn [fst snd].
    split; [exact Hc|]. split; [intros post H; split; [exact (Hh post H)|reflexivity]|].
    split; [exact He|]. intros post. rewrite Hs. discriminate. }
  clear Hstop. cbv zeta.
  set (w1 := if negb (Z.land revents0 POLLIN =? 0)
             then log_call vt_readPty (log_call p w) else log_call p w).
  set (pre := p :: if negb (Z.land revents0 POLLIN =? 0) then [vt_readPty] else []).
  assert (Hw1 : calls w1 = (calls w ++ pre)%list).
  { subst w1 pre. destruct (negb (Z.land revents0 POLLIN =? 0)); cbn [log_call calls];
      rewrite <- ?app_assoc; reflexivity. }
  assert (Hpre_h : forall l, after_first reports_hangup (pre ++ l) = after_first reports_hangup l).
  { intros l. subst pre p. cbn [app after_first reports_hangup]. rewrite Hhup.
    destruct (negb (Z.land revents0 POLLIN =? 0)); reflexivity. }
  assert (Hpre_s : forall l, after_first short_text_write (pre ++ l)
                             = after_first short_text_write l).
  { intros l. subst pre p. cbn [app after_first short_text_write].
    destruct (negb (Z.land revents0 POLLIN =? 0)); reflexivity. }
  assert (Hpre_e : 0 < pty_fd ->
                   forall l, pty_excluded_while bool until_next_release (fun h => h) pty_fd hold (pre ++ l)
                             = pty_excluded_while bool until_next_release (fun h => h) pty_fd hold l).
  { intros Hfd l. subst pre. cbn [app]. rewrite (Hp Hfd).
    destruct (held_poll_excluded pty_fd hold r Hfd) as [_ H].
    fold fd0 in H. fold revents0 in H.
    destruct (negb (Z.land revents0 POLLIN =? 0)); [|reflexivity].
    rewrite (H eq_refl). reflexivity. }
  clearbody w1 pre. clear Hp.
  set (q := if negb (Z.land (x11_revents r) POLLIN =? 0)
            then x11Pending (pending r) xic pty_fd hold w1
            else (None, hold, w1)).
  assert (Hq : exists new1,
             calls (snd q) = (calls w1 ++ new1)%list
             /\ after_first reports_hangup new1 = None
             /\ pty_excluded_while bool until_next_release (fun h => h) pty_fd hold new1
                = Some (snd (fst q))
             /\ (forall post, after_first short_text_write new1 = Some post ->
                              post = [] /\ fst (fst q) = Some false)).
  { subst q. destruct (negb (Z.land (x11_revents r) POLLIN =? 0)).
    - exact (x11Pending_log (pending r) xic pty_fd hold w1).
    - exists []. cbn [fst snd]. rewrite app_nil_r. repeat split; intros; discriminate. }
  destruct Hq as (new1 & Hc1 & Hh1 & He1 & Hs1). clearbody q.
  destruct q as [[res h] w2]. cbn [fst snd] in *.
  destruct res as [d|]; cbn [fst snd].
  - exists (pre ++ new1)%list. rewrite Hc1, Hw1, <- app_assoc.
    split; [reflexivity|]. split.
    { intros post. rewrite Hpre_h, Hh1. discriminate. }
    split.
    { intros Hfd. exists h. now rewrite (Hpre_e Hfd). }
    intros post. rewrite Hpre_s. intros H. exact (Hs1 post H).
  - destruct (IH h w2) as (new2 & Hc2 & Hh2 & He2 & Hs2). unfold exec, eval in *.
    exists (pre ++ new1 ++ new2)%list. rewrite Hc2, Hc1, Hw1, <- !app_assoc.
    split; [reflexivity|]. split.
    { intros post. rewrite Hpre_h, after_first_app, Hh1. exact (Hh2 post). }
    split.
    { intros Hfd. destruct (He2 Hfd) as (h' & Hh'). exists h'.
      now rewrite (Hpre_e Hfd), excluded_app, He1. }
    intros post. rewrite Hpre_s, after_first_app.
    destruct (after_first short_text_write new1) as [p1|] eqn:Ea.
    + destruct (Hs1 p1 eq_refl) as (_ & Hd). discriminate.
    + exact (Hs2 post).
Qed.

Lemma main_session_unfold (rounds : list PollRound) (xic : bool) (x11_fd pty_fd : Z) (w : World) :
  let w0 := log_call (cout ("pty_fd = " ++ show_Z pty_fd))
              (log_call (cout ("x11_fd = " ++ show_Z x11_fd)) w) in
  main_session rounds xic x11_fd pty_fd w
  = match eventLoop_from rounds xic pty_fd false w0 with
    | (None, w1) => (None, w1)
    | (Some d, w1) =>
        (Some 0,
         mkWorld (statics w1) (vt w1) (selMgr w1) (env w1)
           (calls w1 ++ [renderer_reset; eglDestroyContext; eglDestroySurface; eglTerminate]
                     ++ (if d then [] else [XDestroyWindow]) ++ [XCloseDisplay])%list)
    end.
Proof.
  intros w0. unfold main_session, eventLoop. unfold bind at 1. unfold bind at 1.
  unfold call at 1, modify at 1. unfold bind at 1. unfold call at 1, modify at 1.
  fold w0. destruct (eventLoop_from rounds xic pty_fd false w0) as [[d|] w1]; [|reflexivity].
  destruct d; cbn [negb]; run; rewrite <- ?app_assoc; reflexivity.
Qed.

(** What [main] adds to the log when the first call satisfying [p] in the
    log of the event loop ends the loop with [false]; [p] holds of none of
    the calls [main] makes itself. *)
Lemma main_session_log (p : Call -> bool) (rounds : list PollRound) (xic : bool)
    (x11_fd pty_fd : Z) (w : World) :
  (forall s, p (cout s) = false) ->
  after_first p teardown_calls = None ->
  after_first p [renderer_reset; eglDestroyContext; eglDestroySurface; eglTerminate;
                 XCloseDisplay] = None ->
  (forall hold w0, exists new,
      calls (exec (eventLoop_from rounds xic pty_fd hold) w0) = (calls w0 ++ new)%list
      /\ (forall post, after_first p new = Some post ->
                       post = []
                       /\ eval (eventLoop_from rounds xic pty_fd hold) w0 = Some false)) ->
  exists new,
    logs (main_session rounds xic x11_fd pty_fd) w new
    /\ (forall post, after_first p new = Some post ->
                     post = teardown_calls
                     /\ eval (main_session rounds xic x11_fd pty_fd) w = Some 0).
Proof.
  intros Hcout Htd Htd' Hloop. unfold logs, exec, eval. rewrite main_session_unfold. cbv zeta.
  destruct (Hloop false
              (log_call (cout ("pty_fd = " ++ show_Z pty_fd))
                 (log_call (cout ("x11_fd = " ++ show_Z x11_fd)) w)))
    as (new & Hc & Hp).
  unfold exec, eval in Hc, Hp.
  destruct (eventLoop_from rounds xic pty_fd false _) as [[d|] w1]; cbn [fst snd calls] in *.
  - exists ([cout ("x11_fd = " ++ show_Z x11_fd); cout ("pty_fd = " ++ show_Z pty_fd)]
            ++ new
            ++ [renderer_reset; eglDestroyContext; eglDestroySurface; eglTerminate]
            ++ (if d then [] else [XDestroyWindow]) ++ [XCloseDisplay])%list.
    split.
    { rewrite Hc. cbn [log_call calls]. rewrite <- !app_assoc. reflexivity. }
    intros post. cbn [app after_first]. rewrite !Hcout, after_first_app.
    destruct (after_first p new) as [q|] eqn:Eq.
    + destruct (Hp q eq_refl) as (-> & [= ->]). intros [= <-]. split; reflexivity.
    + destruct d; cbn [app]; [rewrite Htd'|fold teardown_calls; rewrite Htd]; discriminate.
  - exists ([cout ("x11_fd = " ++ show_Z x11_fd); cout ("pty_fd = " ++ show_Z pty_fd)]
            ++ new)%list.
    split.
    { rewrite Hc. cbn [log_call calls]. rewrite <- !app_assoc. reflexivity. }
    intros post. cbn [app after_first]. rewrite !Hcout. intros H.
    destruct (Hp post H) as (_ & Hd). discriminate.
Qed.

(* ------------------------------------------------------------------ *)
(** ** The event loop and the end of the session *)

(** C8: once a return of [poll] reports POLLHUP on the PTY entry, the event
    loop makes no further call and returns false, whatever the value of
    [holdPtyIn] and the state it runs from; [main] then runs the session
    teardown and exits. *)
Theorem pty_hangup_ends_session (rounds : list PollRound) (xic : bool) (x11_fd pty_fd : Z) :
  (forall hold w, exists new,
      logs (eventLoop_from rounds xic pty_fd hold) w new
      /\ (forall post, after_first reports_hangup new = Some post ->
                       post = []
                       /\ eval (eventLoop_from rounds xic pty_fd hold) w = Some false))
  /\ (forall w, exists new,
        logs (main_session rounds xic x11_fd pty_fd) w new
        /\ (forall post, after_first reports_hangup new = Some post ->
                         post = teardown_calls
                         /\ eval (main_session rounds xic x11_fd pty_fd) w = Some 0)).
Proof.
  assert (Hloop : forall hold w, exists new,
             calls (exec (eventLoop_from rounds xic pty_fd hold) w) = (calls w ++ new)%list
             /\ (forall post, after_first reports_hangup new = Some post ->
                              post = []
                              /\ eval (eventLoop_from rounds xic pty_fd hold) w = Some false)).
  { intros hold w.
    destruct (eventLoop_from_log rounds xic pty_fd hold w) as (new & Hc & Hh & _).
    exists new. auto. }
  split; [exact Hloop|]. intros w.
  apply main_session_log; [reflexivity|reflexivity|reflexivity|exact Hloop].
Qed.

Lemma pty_hangup_ends_session_witness :
  eval (main_session rounds_hangup true 4 5) (initial_world "" env_full) = Some 0
  /\ after_first reports_hangup
       (calls (exec (main_session rounds_hangup true 4 5) (initial_world "" env_full)))
     = Some teardown_calls.
Proof.
  destruct (proj2 (pty_hangup_ends_session rounds_hangup true 4 5)
              (initial_world "" env_full)) as (new & Hl & H).
  unfold logs in Hl. cbn [initial_world calls app] in Hl. rewrite <- Hl in H.
  split; [exact (proj2 (H teardown_calls eq_refl))|reflexivity].
Defined.

(** C2, as the code has it: when a write of looked-up text is short,
    [x11Event] makes no further call (the write is not retried) and returns
    true with [destroyed] false; the event loop then returns and [main] runs
    the session teardown and exits: the short write ends the session. *)
Theorem short_text_write_ends_session (rounds : list PollRound) (xic : bool) (x11_fd pty_fd : Z) :
  (forall event hold w, exists new,
      logs (x11Event event xic pty_fd hold) w new
      /\ (forall post, after_first short_text_write new = Some post ->
                       post = []
                       /\ returned (eval (x11Event event xic pty_fd hold) w) = true
                       /\ destroyed (eval (x11Event event xic pty_fd hold) w) = false))
  /\ (forall hold w, exists new,
        logs (eventLoop_from rounds xic pty_fd hold) w new
        /\ (forall post, after_first short_text_write new = Some post ->
                         post = []
                         /\ eval (eventLoop_from rounds xic pty_fd hold) w = Some false))
  /\ (forall w, exists new,
        logs (main_session rounds xic x11_fd pty_fd) w new
        /\ (forall post, after_first short_text_write new = Some post ->
                         post = teardown_calls
                         /\ eval (main_session rounds xic x11_fd pty_fd) w = Some 0)).
Proof.
  assert (Hloop : forall hold w, exists new,
             calls (exec (eventLoop_from rounds xic pty_fd hold) w) = (calls w ++ new)%list
             /\ (forall post, after_first short_text_write new = Some post ->
                              post = []
                              /\ eval (eventLoop_from rounds xic pty_fd hold) w = Some false)).
  { intros hold w.
    destruct (eventLoop_from_log rounds xic pty_fd hold w) as (new & Hc & _ & _ & Hs).
    exists new. auto. }
  split; [|split; [exact Hloop|]].
  - intros event hold w.
    destruct (x11Event_log event xic pty_fd hold w) as (new & Hc & _ & _ & Hs).
    exists new. auto.
  - intros w. apply main_session_log; [reflexivity|reflexivity|reflexivity|exact Hloop].
Qed.

Lemma short_text_write_ends_session_witness :
  eval (main_session rounds_key true 4 5) (initial_world "" env_short) = Some 0.
Proof.
  destruct (proj2 (proj2 (short_text_write_ends_session rounds_key true 4 5))
              (initial_world "" env_short)) as (new & Hl & H).
  unfold logs in Hl. cbn [initial_world calls app] in Hl. rewrite <- Hl in H.
  exact (proj2 (H teardown_calls eq_refl)).
Defined.

(** C2, the claim as the spec states it, fails: the key [a] is looked up
    and written, the PTY accepts 0 of its bytes; the write is not retried,
    the second return of [poll] is never asked for, and [main] tears the
    session down and exits with status 0. *)
Lemma short_write_not_retried :
  eval (main_session rounds_key true 4 5) (initial_world "" env_short) = Some 0
  /\ calls (exec (main_session rounds_key true 4 5) (initial_world "" env_short))
     = [cout "x11_fd = 4"; cout "pty_fd = 5";
        sys_poll 5 1 0 POLLIN; XNextEvent key_a; vt_writePty_char "a" 0 0;
        renderer_reset; eglDestroyContext; eglDestroySurface; eglTerminate;
        XDestroyWindow; XCloseDisplay].
Proof. split; reflexivity. Qed.

(** C9, as the code has it: for a PTY descriptor greater than 0, from a
    press of button 1 or 3 to the next release of button 1 or 3 (of either
    button) every [poll] is made with the PTY descriptor negated and reports
    nothing for it, and [readPty] is not called; every other [poll] has the
    PTY descriptor itself. [x11Event] sets [holdPtyIn] accordingly. *)
Theorem pty_held_until_next_release (rounds : list PollRound) (xic : bool) (pty_fd : Z)
    (hold : bool) (w : World) :
  0 < pty_fd ->
  (exists new hold',
      logs (eventLoop_from rounds xic pty_fd hold) w new
      /\ pty_excluded_while bool until_next_release (fun h => h) pty_fd hold new
         = Some hold')
  /\ (forall event,
        holdPtyIn (eval (x11Event event xic pty_fd hold) w)
        = until_next_release event hold).
Proof.
  intros Hfd. split.
  - destruct (eventLoop_from_log rounds xic pty_fd hold w) as (new & Hc & _ & He & _).
    destruct (He Hfd) as (hold' & Hh). exists new, hold'. auto.
  - intros event.
    destruct (x11Event_log event xic pty_fd hold w) as (new & _ & _ & Hh & _).
    exact Hh.
Qed.

Lemma pty_held_until_next_release_witness :
  exists new hold',
    logs (eventLoop_from rounds_drag true 5 false) (initial_world "" env_full) new
    /\ pty_excluded_while bool until_next_release (fun h => h) 5 false new = Some hold'.
Proof.
  exact (proj1 (pty_held_until_next_release rounds_drag true 5 false
                  (initial_world "" env_full) eq_refl)).
Defined.

(** C9, the claim as the spec states it, fails: button 1 is pressed, then
    button 3 is pressed and released; button 1 is still down, its release
    has not come, yet the next [poll] includes the PTY descriptor and
    [readPty] is called. *)
Lemma release_of_other_button_resumes_pty :
  calls (exec (eventLoop_from rounds_two_buttons true 5 false) (initial_world "" env_full))
  = [sys_poll 5 1 0 POLLIN;
     XNextEvent (ButtonPress 1 10 10 100); vt_selectStart 10 10 false;
     XNextEvent (ButtonPress 3 50 10 200); vt_selectExtend 50 10 false;
     XNextEvent (ButtonRelease 3 50 10 300);
     vt_selectFinish true "ab"; selMgr_setSelection 300 "ab";
     sys_poll 5 1 POLLIN 0; vt_readPty]
  /\ pty_excluded_while (bool * bool) until_matching_release drag_in_progress 5
       (false, false)
       (calls (exec (eventLoop_from rounds_two_buttons true 5 false)
                    (initial_world "" env_full)))
     = None.
Proof. split; reflexivity. Qed.

(* ------------------------------------------------------------------ *)
(** ** convertKeyState *)

Lemma land_bit (a : Z) (k : Z) :
  0 <= k -> negb (Z.land a (Z.shiftl 1 k) =? 0) = Z.testbit a k.
Proof.
  intros Hk. rewrite Z.shiftl_1_l.
  destruct (Z.testbit a k) eqn:Hb.
  - apply negb_true_iff, Z.eqb_neq. intros H.
    assert (Ht : Z.testbit (Z.land a (2 ^ k)) k = true)
      by (rewrite Z.land_spec, Hb, Z.pow2_bits_true; auto).
    rewrite H, Z.bits_0 in Ht. discriminate.
  - apply negb_false_iff, Z.eqb_eq. apply Z.bits_inj'. intros n Hn.
    rewrite Z.land_spec, Z.bits_0.
    destruct (Z.eq_dec n k) as [->|Hne].
    + now rewrite Hb.
    + rewrite (Z.pow2_bits_false k n) by auto. apply andb_false_r.
Qed.

(** X1: [convertKeyState] reads three bits of the X state and nothing
    else: bit 0 of the result (shift) is the Shift bit, dropped for the
    keypad digits and the keypad decimal key; bit 1 (alt) is the Mod1 bit;
    bit 2 (control) is the Control bit; the result is at most 7. States that
    agree on these three bits (whatever Lock, NumLock or the button bits say)
    give the same modifier. *)
Theorem convertKeyState_reads_three_bits (ks : KeySym) (state : Z) :
  0 <= convertKeyState ks state <= 7
  /\ Z.testbit (convertKeyState ks state) 0
     = Z.testbit state 0 && negb (existsb (Z.eqb ks) implicit_shift_keys)
  /\ Z.testbit (convertKeyState ks state) 1 = Z.testbit state 3
  /\ Z.testbit (convertKeyState ks state) 2 = Z.testbit state 2
  /\ (forall state',
        Z.testbit state' 0 = Z.testbit state 0 ->
        Z.testbit state' 2 = Z.testbit state 2 ->
        Z.testbit state' 3 = Z.testbit state 3 ->
        convertKeyState ks state' = convertKeyState ks state).
Proof.
  assert (E : forall st,
             convertKeyState ks st
             = Z.lor (Z.lor (if Z.testbit st 0
                             then if existsb (Z.eqb ks) implicit_shift_keys then 0 else 1
                             else 0)
                            (if Z.testbit st 2 then 4 else 0))
                     (if Z.testbit st 3 then 2 else 0)).
  { intros st. unfold convertKeyState, ShiftMask, ControlMask, Mod1Mask.
    rewrite !land_bit by lia.
    destruct (Z.testbit st 0), (existsb (Z.eqb ks) implicit_shift_keys),
      (Z.testbit st 2), (Z.testbit st 3); reflexivity. }
  split; [|split; [|split; [|split]]].
  - rewrite E. destruct (Z.testbit state 0), (existsb (Z.eqb ks) implicit_shift_keys),
      (Z.testbit state 2), (Z.testbit state 3); cbn; lia.
  - rewrite E. destruct (Z.testbit state 0), (existsb (Z.eqb ks) implicit_shift_keys),
      (Z.testbit state 2), (Z.testbit state 3); reflexivity.
  - rewrite E. destruct (Z.testbit state 0), (existsb (Z.eqb ks) implicit_shift_keys),
      (Z.testbit state 2), (Z.testbit state 3); reflexivity.
  - rewrite E. destruct (Z.testbit state 0), (existsb (Z.eqb ks) implicit_shift_keys),
      (Z.testbit state 2), (Z.testbit state 3); reflexivity.
  - intros state' H0 H2 H3. rewrite !E, H0, H2, H3. reflexivity.
Qed.

(* ------------------------------------------------------------------ *)
(** ** Multi-click detection *)

Lemma ulong_sub_earlier (time last : Z) :
  0 <= time < last -> last <= 2 ^ 64 - 250 ->
  (ulong_sub time last <? Multi_Click_Threshold_Ms) = false.
Proof.
  intros H1 H2. unfold ulong_sub, Multi_Click_Threshold_Ms.
  rewrite <- (Z.mod_add (time - last) 1 (2 ^ 64)) by lia.
  rewrite Z.mod_small by lia. apply Z.ltb_ge. lia.
Qed.

(** X2: a press stamped earlier than the last release never counts as a
    repeated click, however close the two stamps are: the difference of the
    times is taken in unsigned arithmetic. (The stamps of the X server are
    32-bit millisecond counts, which start again at 0 after about 49.7
    days.) *)
Theorem press_stamped_before_release_never_cycles
    (x y : Z) (time : Time) (xic : bool) (pty_fd : Z) (hold : bool) (w : World) :
  0 <= time < lastButtonReleasedAt (statics w) ->
  lastButtonReleasedAt (statics w) <= 2 ^ 64 - 250 ->
  logs (x11Event (ButtonPress 1 x y time) xic pty_fd hold) w [vt_selectStart x y false]
  /\ logs (x11Event (ButtonPress 3 x y time) xic pty_fd hold) w [vt_selectExtend x y false].
Proof.
  intros H1 H2. unfold logs, exec.
  destruct (x11Event_press_1 x y time xic pty_fd hold w) as (w1 & E1 & C1 & _).
  destruct (x11Event_press_3 x y time xic pty_fd hold w) as (w3 & E3 & C3).
  rewrite E1, E3. cbn [snd]. rewrite C1, C3. unfold cycleSnapTo_flag.
  rewrite (ulong_sub_earlier _ _ H1 H2), !andb_false_r. split; reflexivity.
Qed.

Lemma press_stamped_before_release_never_cycles_witness :
  logs (x11Event (ButtonPress 1 10 10 5) true 5 false)
       (exec (x11Event (ButtonRelease 1 10 10 4294967290) true 5 false)
             (initial_world "" env_full))
       [vt_selectStart 10 10 false].
Proof.
  apply (press_stamped_before_release_never_cycles 10 10 5 true 5 false
           (exec (x11Event (ButtonRelease 1 10 10 4294967290) true 5 false)
                 (initial_world "" env_full))).
  - cbn. lia.
  - cbn. lia.
Defined.

(** X3: every button release is recorded as the last one, also that of
    the wheel (4, 5), of button 2 or of any other button: after the release
    of a button [b], a press of a different button 1 or 3 passes
    [cycleSnapTo = false], whatever the times. A turn of the wheel between
    two clicks therefore ends a multi-click. *)
Theorem release_of_other_button_ends_multi_click
    (b x' y' : Z) (tr : Time) (x y : Z) (tp : Time)
    (xic : bool) (pty_fd : Z) (hold hold' : bool) (w : World) :
  (b <> 1 ->
   logs (x11Event (ButtonPress 1 x y tp) xic pty_fd hold')
        (exec (x11Event (ButtonRelease b x' y' tr) xic pty_fd hold) w)
        [vt_selectStart x y false])
  /\ (b <> 3 ->
      logs (x11Event (ButtonPress 3 x y tp) xic pty_fd hold')
           (exec (x11Event (ButtonRelease b x' y' tr) xic pty_fd hold) w)
           [vt_selectExtend x y false]).
Proof.
  destruct (x11Event_release b x' y' tr xic pty_fd hold w) as (r & w1 & E & _ & Hst & _).
  unfold logs, exec. rewrite E. cbn [snd].
  destruct (x11Event_press_1 x y tp xic pty_fd hold' w1) as (w2 & E1 & C1 & _).
  destruct (x11Event_press_3 x y tp xic pty_fd hold' w1) as (w3 & E3 & C3).
  rewrite E1, E3. cbn [snd]. rewrite C1, C3. unfold cycleSnapTo_flag. rewrite Hst.
  cbn [lastButtonReleased lastButtonReleasedAt].
  split; intros Hb; apply not_eq_sym, Z.eqb_neq in Hb; rewrite Hb; reflexivity.
Qed.

Lemma release_of_other_button_ends_multi_click_witness :
  logs (x11Event (ButtonPress 1 10 10 1020) true 5 false)
       (exec (x11Event (ButtonRelease 4 10 10 1010) true 5 false)
             (exec (x11Event (ButtonRelease 1 10 10 1000) true 5 false)
                   (initial_world "" env_full)))
       [vt_selectStart 10 10 false].
Proof.
  apply (proj1 (release_of_other_button_ends_multi_click 4 10 10 1010 10 10 1020
                  true 5 false false
                  (exec (x11Event (ButtonRelease 1 10 10 1000) true 5 false)
                        (initial_world "" env_full)))).
  discriminate.
Defined.

(* ------------------------------------------------------------------ *)
(** ** handleOsc, the other commands *)


(** X5: a selection set through OSC 52 is what a later OSC 52 query
    answers with: after a payload [pc;pd] with [pd] other than "?", a query
    hands [writePty] ESC ] 52 ; ; base64(decode(pd)) ESC \, whatever the
    selection letters of the two payloads are. *)
Theorem osc52_set_then_query (dec : string -> string) (pc pd pc' : string) (w : World) :
  ~ In ";"%char (list_ascii_of_string pc) ->
  ~ In ";"%char (list_ascii_of_string pc') ->
  pd <> "?" ->
  exists n,
    logs (handleOsc dec 52 (pc ++ ";" ++ pd) ;; handleOsc dec 52 (pc' ++ ";?"))%M w
         [logT ("OSC 52: pc='" ++ pc ++ "', pd='" ++ pd ++ "'");
          selMgr_setSelection CurrentTime (dec pd);
          logT ("OSC 52: pc='" ++ pc' ++ "', pd='?'");
          selMgr_getSelection CurrentTime Osc52ReplyCallback;
          vt_writePty_str (ESC ++ "]52;;" ++ base64.encode (dec pd) ++ ESC ++ "\") n].
Proof.
  intros Hpc Hpc' Hpd. change (pc ++ ";" ++ pd) with (pc ++ String ";" pd).
  rewrite (handleOsc_52_separator dec pc pd Hpc), (handleOsc_52_separator dec pc' "?" Hpc').
  apply String.eqb_neq in Hpd. rewrite Hpd, String.eqb_refl.
  eexists. run. fold (osc52_reply (dec pd)). rewrite osc52_reply_c_str.
  rewrite <- !app_assoc. reflexivity.
Qed.

Lemma osc52_set_then_query_witness :
  exists n,
    logs (handleOsc (fun s => s) 52 "c;abc" ;; handleOsc (fun s => s) 52 "p;?")%M
         (initial_world "" env_full)
         [logT "OSC 52: pc='c', pd='abc'";
          selMgr_setSelection CurrentTime "abc";
          logT "OSC 52: pc='p', pd='?'";
          selMgr_getSelection CurrentTime Osc52ReplyCallback;
          vt_writePty_str (ESC ++ "]52;;YWJj" ++ ESC ++ "\") n].
Proof.
  assert (H : ~ In ";"%char (list_ascii_of_string "c"))
    by (simpl; intros [H|[]]; discriminate H).
  assert (H' : ~ In ";"%char (list_ascii_of_string "p"))
    by (simpl; intros [H'|[]]; discriminate H').
  assert (Hd : "abc" <> "?") by discriminate.
  exact (osc52_set_then_query (fun s => s) "c" "abc" "p"
           (initial_world "" env_full) H H' Hd).
Defined.

(* ------------------------------------------------------------------ *)
(** ** Key presses *)

Lemma keysend_In (table : list (KeySym * VtKey)) (ks : KeySym) (k : VtKey) :
  keysend table ks = Some k -> In (ks, k) table.
Proof.
  induction table as [|[xkey vtkey] rest IH]; cbn [keysend]; [discriminate|].
  destruct (Z.eqb_spec ks xkey) as [->|_].
  - intros [= ->]. now left.
  - intros H. right. exact (IH H).
Qed.

(** X6: a key of the [KEYSEND] table (other than Insert, keypad Insert and
    keypad Space, which have uses of their own) is sent with exactly one call
    [writePty (key, modifiers)], the modifiers being those of
    [convertKeyState]; what that call returns is not looked at, so
    [x11Event] returns false however few bytes the PTY accepted, and then
    redraws if the window has been exposed. *)
Theorem table_key_sent_once_result_ignored
    (state : Z) (time : Time) (lk : KeyLookup) (k : VtKey)
    (xic : bool) (pty_fd : Z) (hold : bool) (w : World) :
  keysend KEYSEND (lk_ks lk) = Some k ->
  lk_ks lk <> XK_Insert -> lk_ks lk <> XK_KP_Insert -> lk_ks lk <> XK_KP_Space ->
  xic && lk_overflow lk = false ->
  logs (x11Event (KeyPress state time lk) xic pty_fd hold) w
       (vt_writePty_key k (convertKeyState (lk_ks lk) state)
          (writePty_ret (env w) (List.length (calls w)))
        :: if exposed (statics w) then [vt_redraw] else [])
  /\ eval (x11Event (KeyPress state time lk) xic pty_fd hold) w
     = mkX11Result false false hold.
Proof.
  intros Hk Hi Hki Hks Hov.
  assert (Hsp : (lk_ks lk =? XK_space) = false).
  { destruct (Z.eqb_spec (lk_ks lk) XK_space) as [E|]; [|reflexivity].
    rewrite E in Hk. discriminate Hk. }
  apply Z.eqb_neq in Hi, Hki, Hks.
  unfold x11Event, x11Event_switch, keyPress. rewrite Hov, Hi, Hki, Hsp, Hks, Hk.
  cbn [orb andb]. run. rewrite andb_true_r.
  destruct (exposed (statics w)); run; rewrite <- ?app_assoc; split; reflexivity.
Qed.

Lemma table_key_sent_once_result_ignored_witness :
  logs (x11Event (KeyPress 4 100 (mkKeyLookup XK_Up "" false false)) true 5 false)
       (initial_world "" env_short)
       [vt_writePty_key Key_Up VtMod.control 0]
  /\ eval (x11Event (KeyPress 4 100 (mkKeyLookup XK_Up "" false false)) true 5 false)
          (initial_world "" env_short)
     = mkX11Result false false false.
Proof.
  apply (table_key_sent_once_result_ignored 4 100 (mkKeyLookup XK_Up "" false false)
           Key_Up true 5 false (initial_world "" env_short));
    try reflexivity; discriminate.
Defined.

(** X7: pasting. Insert or keypad Insert pressed with exactly the Shift
    bit in the state asks the selection manager for the selection, with the
    callback that pastes it, and sends nothing as a key; with any other
    state (Shift together with NumLock, say) the key is sent to the PTY
    instead. The release of button 2 asks for the selection in the same
    way. *)
Theorem paste_on_shift_insert_and_button_2
    (state : Z) (time : Time) (text : string) (filtered : bool)
    (xic : bool) (pty_fd : Z) (hold : bool) (w : World) :
  (forall ks, ks = XK_Insert \/ ks = XK_KP_Insert ->
     let e := KeyPress state time (mkKeyLookup ks text false filtered) in
     (state = ShiftMask ->
      logs (x11Event e xic pty_fd hold) w
           [selMgr_getSelection time PasteCallback;
            vt_pasteSelection (selection (selMgr w))])
     /\ (state <> ShiftMask ->
         logs (x11Event e xic pty_fd hold) w
              (vt_writePty_key (if ks =? XK_Insert then Key_Insert else Key_KP_Insert)
                 (convertKeyState ks state)
                 (writePty_ret (env w) (List.length (calls w)))
               :: if exposed (statics w) then [vt_redraw] else [])))
  /\ (forall x y,
        logs (x11Event (ButtonRelease 2 x y time) xic pty_fd hold) w
             [selMgr_getSelection time PasteCallback;
              vt_pasteSelection (selection (selMgr w))]).
Proof.
  split.
  - intros ks Hks e. subst e. unfold x11Event, x11Event_switch, keyPress.
    cbn [lk_ks lk_text lk_overflow lk_filtered]. rewrite andb_false_r.
    assert (Hor : (ks =? XK_Insert) || (ks =? XK_KP_Insert) = true)
      by (destruct Hks as [-> | ->]; reflexivity).
    assert (Hsp : (ks =? XK_space) || (ks =? XK_KP_Space) = false)
      by (destruct Hks as [-> | ->]; reflexivity).
    assert (Hk : keysend KEYSEND ks
                 = Some (if ks =? XK_Insert then Key_Insert else Key_KP_Insert))
      by (destruct Hks as [-> | ->]; reflexivity).
    rewrite Hor, Hsp, Hk. cbn [andb]. split.
    + intros ->. cbn [Z.eqb ShiftMask Z.shiftl Pos.eqb]. run. rewrite andb_false_r.
      cbn [snd calls]. rewrite <- app_assoc. reflexivity.
    + intros Hst. apply Z.eqb_neq in Hst. rewrite Hst. run. rewrite andb_true_r.
      destruct (exposed (statics w)); run; rewrite <- ?app_assoc; reflexivity.
  - intros x y. unfold x11Event, x11Event_switch, buttonRelease. run.
    cbn [Z.eqb Pos.eqb orb]. run. rewrite andb_false_r. cbn [snd calls].
    rewrite <- app_assoc. reflexivity.
Qed.

Lemma paste_on_shift_insert_and_button_2_witness :
  logs (x11Event (KeyPress 1 100 (mkKeyLookup XK_Insert "" false false)) true 5 false)
       (initial_world "pasted" env_full)
       [selMgr_getSelection 100 PasteCallback; vt_pasteSelection "pasted"]
  /\ logs (x11Event (KeyPress 17 100 (mkKeyLookup XK_Insert "" false false)) true 5 false)
          (initial_world "pasted" env_full)
          [vt_writePty_key Key_Insert VtMod.shift 64].
Proof.
  destruct (proj1 (paste_on_shift_insert_and_button_2 1 100 "" false true 5 false
                     (initial_world "pasted" env_full))
              XK_Insert (or_introl eq_refl)) as (H1 & _).
  destruct (proj1 (paste_on_shift_insert_and_button_2 17 100 "" false true 5 false
                     (initial_world "pasted" env_full))
              XK_Insert (or_introl eq_refl)) as (_ & H2).
  split; [exact (H1 eq_refl)|]. apply H2. discriminate.
Defined.

(** X8: the space key or keypad Space pressed while button 1 or 3 is held
    toggles the rectangular selection mode and nothing else: nothing is
    written to the PTY and nothing is redrawn. *)
Theorem space_with_button_toggles_rectangular
    (ks : KeySym) (state : Z) (time : Time) (text : string) (filtered : bool)
    (xic : bool) (pty_fd : Z) (hold : bool) (w : World) :
  ks = XK_space \/ ks = XK_KP_Space ->
  Z.land state (Z.lor Button1Mask Button3Mask) <> 0 ->
  logs (x11Event (KeyPress state time (mkKeyLookup ks text false filtered)) xic pty_fd hold) w
       [vt_selectRectangularModeToggle]
  /\ eval (x11Event (KeyPress state time (mkKeyLookup ks text false filtered))
             xic pty_fd hold) w
     = mkX11Result false false hold.
Proof.
  intros Hks Hst. apply Z.eqb_neq in Hst.
  unfold x11Event, x11Event_switch, keyPress.
  cbn [lk_ks lk_text lk_overflow lk_filtered]. rewrite andb_false_r.
  assert (Hor : (ks =? XK_Insert) || (ks =? XK_KP_Insert) = false)
    by (destruct Hks as [-> | ->]; reflexivity).
  assert (Hsp : (ks =? XK_space) || (ks =? XK_KP_Space) = true)
    by (destruct Hks as [-> | ->]; reflexivity).
  rewrite Hor, Hsp, Hst. cbn [andb negb]. run. rewrite andb_false_r.
  split; reflexivity.
Qed.

Lemma space_with_button_toggles_rectangular_witness :
  logs (x11Event (KeyPress 256 100 (mkKeyLookup XK_space " " false false)) true 5 true)
       (initial_world "" env_full)
       [vt_selectRectangularModeToggle].
Proof.
  apply (proj1 (space_with_button_toggles_rectangular XK_space 256 100 " " false
                  true 5 true (initial_world "" env_full)
                  (or_introl eq_refl) ltac:(discriminate))).
Defined.

(** The ways through [case KeyPress]: what is left in the log, and how the
    case is left. *)
Lemma keyPress_cases (state : Z) (time : Time) (lk : KeyLookup) (xic hold : bool) (w : World) :
  statics (snd (keyPress state time lk xic hold w)) = statics w
  /\ exists new,
       calls (snd (keyPress state time lk xic hold w)) = (calls w ++ new)%list
       /\ ((fst (keyPress state time lk xic hold w) = Break false hold
            /\ filter is_writePty new = [] /\ filter is_setSelection new = [])
           \/ (fst (keyPress state time lk xic hold w) = Break true hold
               /\ filter is_setSelection new = []
               /\ (lk_filtered lk = true -> keysend KEYSEND (lk_ks lk) = None ->
                   new = []))
           \/ (exists n,
                  fst (keyPress state time lk xic hold w) = Return true false hold
                  /\ keysend KEYSEND (lk_ks lk) = None /\ lk_filtered lk = false
                  /\ ((new = [vt_writePty_str (c_str (lk_text lk)) n]
                       /\ n < strlen (lk_text lk))
                      \/ (new = [vt_writePty_char (buffer0 (lk_text lk))
                                   (convertKeyState (lk_ks lk) state) n]
                          /\ n < 1)))).
Proof.
  unfold keyPress.
  destruct (xic && lk_overflow lk).
  { run. split; [reflexivity|]. eexists; split; [reflexivity|]. left. repeat split. }
  destruct (((lk_ks lk =? XK_Insert) || (lk_ks lk =? XK_KP_Insert)) && (state =? ShiftMask)).
  { run. split; [reflexivity|].
    eexists; split; [rewrite <- ?app_assoc; reflexivity|]. left. repeat split. }
  destruct (((lk_ks lk =? XK_space) || (lk_ks lk =? XK_KP_Space))
            && negb (Z.land state (Z.lor Button1Mask Button3Mask) =? 0)).
  { run. split; [reflexivity|]. eexists; split; [reflexivity|]. left. repeat split. }
  destruct (keysend KEYSEND (lk_ks lk)) eqn:Hk.
  { run. split; [reflexivity|]. eexists; split; [reflexivity|]. right; left.
    repeat split. intros _ H. discriminate H. }
  destruct (keyign (lk_ks lk)).
  { run. split; [reflexivity|]. exists []. rewrite app_nil_r. split; [reflexivity|].
    right; left. repeat split. }
  destruct (lk_filtered lk) eqn:Hf.
  { run. split; [reflexivity|]. exists []. rewrite app_nil_r. split; [reflexivity|].
    right; left. repeat split. }
  destruct (strlen (lk_text lk) >? 1).
  - run. set (n := writePty_ret (env w) (Datatypes.length (calls w))).
    destruct (Z.ltb_spec n (strlen (lk_text lk))) as [Hlt|Hge]; run;
      (split; [reflexivity|]); (eexists; split; [reflexivity|]).
    + right; right. exists n. repeat split. left. split; [reflexivity|exact Hlt].
    + right; left. repeat split. intros H. discriminate H.
  - run. set (n := writePty_ret (env w) (Datatypes.length (calls w))).
    destruct (Z.ltb_spec n 1) as [Hlt|Hge]; run;
      (split; [reflexivity|]); (eexists; split; [reflexivity|]).
    + right; right. exists n. repeat split. right. split; [reflexivity|exact Hlt].
    + right; left. repeat split. intros H. discriminate H.
Qed.

(** X9: a key press the input method filtered, or whose text did not fit
    the lookup buffer, writes no text: on XBufferOverflow (reported by
    [XmbLookupString], so only with an input context) the event is only
    reported on standard error; a filtered key outside the [KEYSEND] table
    leaves no call at all but the redraw of an exposed window. *)
Theorem filtered_or_overflowing_key_not_written
    (state : Z) (time : Time) (lk : KeyLookup) (pty_fd : Z) (hold : bool) (w : World) :
  (lk_overflow lk = true ->
   logs (x11Event (KeyPress state time lk) true pty_fd hold) w
        [cerr ("KeyPress event: buffer size 16 is too small for XmbLookupString, "
               ++ "would have needed  a buffer with "
               ++ show_Z (strlen (lk_text lk) + 1) ++ " bytes.")]
   /\ eval (x11Event (KeyPress state time lk) true pty_fd hold) w
      = mkX11Result false false hold)
  /\ (forall xic,
        lk_filtered lk = true -> keysend KEYSEND (lk_ks lk) = None ->
        filter is_writePty (calls (exec (x11Event (KeyPress state time lk) xic pty_fd hold) w))
        = filter is_writePty (calls w)
        /\ returned (eval (x11Event (KeyPress state time lk) xic pty_fd hold) w) = false).
Proof.
  split.
  - intros Hov. unfold x11Event, x11Event_switch, keyPress. rewrite Hov. cbn [andb].
    run. rewrite andb_false_r. split; reflexivity.
  - intros xic Hf Hk. unfold exec, eval, x11Event, x11Event_switch, bind.
    destruct (keyPress_cases state time lk xic hold w) as (Hst & new & Hc & Hcase).
    destruct (keyPress state time lk xic hold w) as [f w1]. cbn [fst snd] in *.
    destruct Hcase as [(-> & Hw & _)|[(-> & _ & Hn)|(n & _ & _ & Hf' & _)]].
    + unfold get. rewrite andb_false_r. run. rewrite Hc, filter_app, Hw, app_nil_r.
      split; reflexivity.
    + rewrite (Hn Hf Hk), app_nil_r in Hc. unfold get.
      destruct (exposed (statics w1) && true); run;
        rewrite ?Hc, ?filter_app, ?Hc; cbn [filter is_writePty]; rewrite ?app_nil_r;
        split; reflexivity.
    + congruence.
Qed.

Lemma filtered_or_overflowing_key_not_written_witness :
  logs (x11Event (KeyPress 0 100 (mkKeyLookup 0x61 "aaaaaaaaaaaaaaaa" true false)) true 5 false)
       (initial_world "" env_full)
       [cerr ("KeyPress event: buffer size 16 is too small for XmbLookupString, "
              ++ "would have needed  a buffer with 17 bytes.")]
  /\ filter is_writePty
       (calls (exec (x11Event (KeyPress 0 100 (mkKeyLookup 0x61 "a" false true)) true 5 false)
                    (initial_world "" env_full)))
     = [].
Proof.
  split.
  - exact (proj1 (proj1 (filtered_or_overflowing_key_not_written 0 100
                           (mkKeyLookup 0x61 "aaaaaaaaaaaaaaaa" true false) 5 false
                           (initial_world "" env_full)) eq_refl)).
  - exact (proj1 (proj2 (filtered_or_overflowing_key_not_written 0 100
                           (mkKeyLookup 0x61 "a" false true) 5 false
                           (initial_world "" env_full)) true eq_refl eq_refl)).
Defined.

(* ------------------------------------------------------------------ *)
(** ** What x11Event leaves alone *)

Ltac crunch :=
  repeat (run; match goal with
               | |- context [if ?b then _ else _] => destruct b
               end);
  run.

Lemma x11Event_return_cases
    (event : XEvent) (xic : bool) (pty_fd : Z) (hold : bool) (w : World) :
  returned (eval (x11Event event xic pty_fd hold) w) = true ->
  (event = DestroyNotify
   /\ destroyed (eval (x11Event event xic pty_fd hold) w) = true
   /\ logs (x11Event event xic pty_fd hold) w [cout "DestroyNotify"])
  \/ (exists state time lk n,
         event = KeyPress state time lk
         /\ destroyed (eval (x11Event event xic pty_fd hold) w) = false
         /\ keysend KEYSEND (lk_ks lk) = None /\ lk_filtered lk = false
         /\ ((logs (x11Event event xic pty_fd hold) w
                   [vt_writePty_str (c_str (lk_text lk)) n]
              /\ n < strlen (lk_text lk))
             \/ (logs (x11Event event xic pty_fd hold) w
                      [vt_writePty_char (buffer0 (lk_text lk))
                         (convertKeyState (lk_ks lk) state) n]
                 /\ n < 1))).
Proof.
  destruct event;
    try (intros H; exfalso; revert H;
         unfold x11Event, x11Event_switch, buttonPress, buttonRelease;
         crunch; discriminate).
  - intros _. left. repeat split.
  - intros H. right. exists state, time, lookup.
    unfold logs, exec, eval, x11Event, x11Event_switch, bind in *.
    destruct (keyPress_cases state time lookup xic hold w) as (Hst & new & Hc & Hcase).
    destruct (keyPress state time lookup xic hold w) as [f w1]. cbn [fst snd] in *.
    destruct Hcase as [(-> & _)|[(-> & _)|(n & -> & Hk & Hf & Hn)]].
    + exfalso. revert H. unfold get. rewrite andb_false_r. run. discriminate.
    + exfalso. revert H. unfold get. destruct (exposed (statics w1) && true); run; discriminate.
    + exists n. run. split; [reflexivity|]. split; [reflexivity|].
      split; [exact Hk|]. split; [exact Hf|].
      destruct Hn as [(-> & Hn)|(-> & Hn)]; [left|right]; split; assumption.
Qed.

(** X10: [x11Event] asks its caller to leave the event loop in two cases
    only: on DestroyNotify, with [destroyed] set, and on a key press outside
    the tables whose looked-up text the PTY did not accept in full, with
    [destroyed] clear. No other event, and no button or selection event in
    particular, ends the loop. *)
Theorem x11Event_leaves_loop_only_on_destroy_or_short_write
    (event : XEvent) (xic : bool) (pty_fd : Z) (hold : bool) (w : World) :
  returned (eval (x11Event event xic pty_fd hold) w) = true ->
  (event = DestroyNotify
   /\ destroyed (eval (x11Event event xic pty_fd hold) w) = true
   /\ logs (x11Event event xic pty_fd hold) w [cout "DestroyNotify"])
  \/ (exists state time lk n,
         event = KeyPress state time lk
         /\ destroyed (eval (x11Event event xic pty_fd hold) w) = false
         /\ keysend KEYSEND (lk_ks lk) = None /\ lk_filtered lk = false
         /\ ((logs (x11Event event xic pty_fd hold) w
                   [vt_writePty_str (c_str (lk_text lk)) n]
              /\ n < strlen (lk_text lk))
             \/ (logs (x11Event event xic pty_fd hold) w
                      [vt_writePty_char (buffer0 (lk_text lk))
                         (convertKeyState (lk_ks lk) state) n]
                 /\ n < 1))).
Proof. exact (x11Event_return_cases event xic pty_fd hold w). Qed.

Lemma x11Event_leaves_loop_only_on_destroy_or_short_write_witness :
  logs (x11Event key_a true 5 false) (initial_world "" env_short)
       [vt_writePty_char "a" 0 0].
Proof.
  destruct (x11Event_leaves_loop_only_on_destroy_or_short_write key_a true 5 false
              (initial_world "" env_short) eq_refl)
    as [(H & _)|(state & time & lk & n & He & _ & _ & _ & [(Hl & _)|(Hl & _)])].
  - discriminate H.
  - reflexivity.
  - reflexivity.
Defined.

Lemma x11Event_frame_facts (event : XEvent) (xic : bool) (pty_fd : Z) (hold : bool) (w : World) :
  exposed (statics (exec (x11Event event xic pty_fd hold) w))
  = exposed (statics w) || is_expose event
  /\ (is_release event = false ->
      lastButtonReleased (statics (exec (x11Event event xic pty_fd hold) w))
      = lastButtonReleased (statics w)
      /\ lastButtonReleasedAt (statics (exec (x11Event event xic pty_fd hold) w))
         = lastButtonReleasedAt (statics w))
  /\ (is_keypress event = false ->
      filter is_writePty (calls (exec (x11Event event xic pty_fd hold) w))
      = filter is_writePty (calls w))
  /\ (is_release event = false ->
      filter is_setSelection (calls (exec (x11Event event xic pty_fd hold) w))
      = filter is_setSelection (calls w)).
Proof.
  destruct event;
    try (unfold x11Event, x11Event_switch, buttonPress, buttonRelease;
         cbn [is_expose is_release is_keypress]; crunch;
         rewrite ?filter_app; cbn [filter is_writePty is_setSelection];
         rewrite ?app_nil_r, ?orb_false_r, ?orb_true_r;
         repeat split; intros; try discriminate; reflexivity).
  unfold exec, x11Event, x11Event_switch, bind. cbn [is_expose is_release is_keypress].
  destruct (keyPress_cases state time lookup xic hold w) as (Hst & new & Hc & Hcase).
  destruct (keyPress state time lookup xic hold w) as [f w1]. cbn [fst snd] in *.
  rewrite orb_false_r.
  assert (Hset : filter is_setSelection new = []).
  { destruct Hcase as [(_ & _ & H)|[(_ & H & _)|(n & _ & _ & _ & [(-> & _)|(-> & _)])]];
      auto. }
  destruct f as [redraw h|v d h]; unfold get.
  - destruct (exposed (statics w1) && redraw); run; rewrite ?Hst, ?Hc, ?filter_app, ?Hset;
      cbn [filter is_setSelection]; rewrite ?app_nil_r;
      repeat split; intros; try discriminate; reflexivity.
  - run. rewrite ?Hst, ?Hc, ?filter_app, ?Hset, ?app_nil_r.
    repeat split; intros; try discriminate; reflexivity.
Qed.

(** X11: what [x11Event] leaves alone. [exposed] is set by an Expose event
    and never cleared; the record of the last button release changes on a
    ButtonRelease event only; [writePty] is called for key presses only;
    [setSelection] is called for button releases only. *)
Theorem x11Event_frame (event : XEvent) (xic : bool) (pty_fd : Z) (hold : bool) (w : World) :
  exposed (statics (exec (x11Event event xic pty_fd hold) w))
  = exposed (statics w) || is_expose event
  /\ (is_release event = false ->
      lastButtonReleased (statics (exec (x11Event event xic pty_fd hold) w))
      = lastButtonReleased (statics w)
      /\ lastButtonReleasedAt (statics (exec (x11Event event xic pty_fd hold) w))
         = lastButtonReleasedAt (statics w))
  /\ (is_keypress event = false ->
      filter is_writePty (calls (exec (x11Event event xic pty_fd hold) w))
      = filter is_writePty (calls w))
  /\ (is_release event = false ->
      filter is_setSelection (calls (exec (x11Event event xic pty_fd hold) w))
      = filter is_setSelection (calls w)).
Proof. exact (x11Event_frame_facts event xic pty_fd hold w). Qed.


(* ------------------------------------------------------------------ *)
(** ** The runs of the event loop *)

Lemma x11Pending_runs (xic : bool) (pty_fd : Z) (queue : list XEvent) (hold : bool) (w : World) :
  exists new,
    Pending xic pty_fd hold w queue new
            (fst (eval (x11Pending queue xic pty_fd hold) w))
            (snd (eval (x11Pending queue xic pty_fd hold) w))
            (exec (x11Pending queue xic pty_fd hold) w).
Proof.
  revert hold w. induction queue as [|e rest IH]; intros hold w.
  - exists []. apply Pending_drained.
  - destruct (x11Event_log e xic pty_fd hold (log_call (XNextEvent e) w))
      as (new1 & Hc1 & _).
    unfold exec, eval in *.
    destruct (x11Event e xic pty_fd hold (log_call (XNextEvent e) w)) as [r w1] eqn:E.
    cbn [snd] in Hc1.
    destruct (returned r) eqn:Hr.
    + rewrite (x11Pending_stop _ _ _ _ _ _ _ _ E Hr). cbn [fst snd].
      exists (XNextEvent e :: new1). now apply Pending_leave.
    + rewrite (x11Pending_next _ _ _ _ _ _ _ _ E Hr).
      destruct (IH (holdPtyIn r) w1) as (new2 & H2).
      exists (XNextEvent e :: new1 ++ new2)%list.
      now apply Pending_next with (r := r) (w1 := w1).
Qed.

Lemma eventLoop_runs (xic : bool) (pty_fd : Z) (rounds : list PollRound) (hold : bool) (w : World) :
  exists new,
    Loop xic pty_fd hold w rounds new
         (eval (eventLoop_from rounds xic pty_fd hold) w)
         (exec (eventLoop_from rounds xic pty_fd hold) w).
Proof.
  revert hold w. induction rounds as [|r rest IH]; intros hold w.
  { exists []. apply Loop_blocked. }
  unfold exec, eval. rewrite eventLoop_from_round. cbv zeta.
  fold (poll_revents0 pty_fd hold r). fold (poll_call pty_fd hold r).
  destruct (poll_ret r <? 0) eqn:Hrc.
  { exists [poll_call pty_fd hold r]. apply Loop_poll_ends. now rewrite Hrc. }
  destruct (negb (Z.land (poll_revents0 pty_fd hold r) POLLHUP =? 0)) eqn:Hhup.
  { exists [poll_call pty_fd hold r]. apply Loop_poll_ends. now rewrite Hrc, Hhup. }
  fold (after_poll pty_fd hold r w).
  assert (Hq : exists xlog,
             Pending xic pty_fd hold (after_poll pty_fd hold r w) (queue_of r) xlog
               (fst (fst (if negb (Z.land (x11_revents r) POLLIN =? 0)
                          then x11Pending (pending r) xic pty_fd hold (after_poll pty_fd hold r w)
                          else (None, hold, after_poll pty_fd hold r w))))
               (snd (fst (if negb (Z.land (x11_revents r) POLLIN =? 0)
                          then x11Pending (pending r) xic pty_fd hold (after_poll pty_fd hold r w)
                          else (None, hold, after_poll pty_fd hold r w))))
               (snd (if negb (Z.land (x11_revents r) POLLIN =? 0)
                     then x11Pending (pending r) xic pty_fd hold (after_poll pty_fd hold r w)
                     else (None, hold, after_poll pty_fd hold r w)))).
  { unfold queue_of. destruct (negb (Z.land (x11_revents r) POLLIN =? 0)).
    - exact (x11Pending_runs xic pty_fd (pending r) hold (after_poll pty_fd hold r w)).
    - exists []. apply Pending_drained. }
  destruct Hq as (xlog & Hq).
  destruct (if negb (Z.land (x11_revents r) POLLIN =? 0)
            then x11Pending (pending r) xic pty_fd hold (after_poll pty_fd hold r w)
            else (None, hold, after_poll pty_fd hold r w)) as [[res h] w2].
  cbn [fst snd] in *. destruct res as [d|].
  - exists (poll_call pty_fd hold r :: reads_of pty_fd hold r ++ xlog)%list.
    apply Loop_event_ends with (hold' := h); [now rewrite Hrc, Hhup|exact Hq].
  - destruct (IH h w2) as (new & Hn). unfold exec, eval in Hn.
    exists (poll_call pty_fd hold r :: reads_of pty_fd hold r ++ xlog ++ new)%list.
    apply Loop_again with (hold' := h) (w2 := w2); [now rewrite Hrc, Hhup|exact Hq|exact Hn].
Qed.

Lemma Pending_calls (xic : bool) (pty_fd : Z) hold w queue new res hold' w' :
  Pending xic pty_fd hold w queue new res hold' w' ->
  calls w' = (calls w ++ new)%list.
Proof.
  induction 1 as [hold w|hold w e rest r w1 evlog E Hc Hr
                 |hold w e rest r w1 evlog new res hold' w2 E Hc Hr _ IH].
  - now rewrite app_nil_r.
  - rewrite Hc. cbn [log_call calls]. now rewrite <- app_assoc.
  - rewrite IH, Hc. cbn [log_call calls]. now rewrite <- !app_assoc.
Qed.

Lemma after_poll_calls (pty_fd : Z) (hold : bool) (r : PollRound) (w : World) :
  calls (after_poll pty_fd hold r w)
  = (calls w ++ poll_call pty_fd hold r :: reads_of pty_fd hold r)%list.
Proof.
  unfold after_poll, reads_of.
  destruct (negb (Z.land (poll_revents0 pty_fd hold r) POLLIN =? 0)); cbn [log_call calls];
    now rewrite <- ?app_assoc.
Qed.

Lemma Loop_calls (xic : bool) (pty_fd : Z) hold w rounds new out w' :
  Loop xic pty_fd hold w rounds new out w' ->
  calls w' = (calls w ++ new)%list.
Proof.
  induction 1 as [hold w|hold w r rest Hp
                 |hold w r rest xlog d hold' w2 Hp Hq
                 |hold w r rest xlog hold' w2 new out w3 Hp Hq _ IH].
  - now rewrite app_nil_r.
  - reflexivity.
  - rewrite (Pending_calls _ _ _ _ _ _ _ _ _ Hq), after_poll_calls, <- app_assoc.
    reflexivity.
  - rewrite IH, (Pending_calls _ _ _ _ _ _ _ _ _ Hq), after_poll_calls, <- !app_assoc.
    reflexivity.
Qed.

Lemma quiet_none (p : Call -> bool) (l : list Call) :
  (forall c, p c = true -> loop_call c = true) ->
  quiet l = true -> after_first p l = None.
Proof.
  intros Hp. induction l as [|c l IH]; cbn [quiet forallb after_first]; [reflexivity|].
  intros H. apply andb_prop in H as [Hc Hl].
  destruct (p c) eqn:E; [|exact (IH Hl)].
  rewrite (Hp c E) in Hc. discriminate Hc.
Qed.

Lemma event_quiet (e : XEvent) (xic : bool) (pty_fd : Z) (hold : bool)
    (w0 w1 : World) (r : X11Result) (evlog : list Call) :
  x11Event e xic pty_fd hold w0 = (r, w1) ->
  calls w1 = (calls w0 ++ evlog)%list ->
  quiet evlog = true /\ holdPtyIn r = until_next_release e hold.
Proof.
  intros E Hc. destruct (x11Event_log e xic pty_fd hold w0) as (new & Hn & Hq & Hh & _).
  unfold exec, eval in Hn, Hh. rewrite E in Hn, Hh. cbn [fst snd] in Hn, Hh.
  rewrite Hc in Hn. apply app_inv_head in Hn. subst new. auto.
Qed.

Lemma destroy_is_loop_call (c : Call) : is_destroy_event c = true -> loop_call c = true.
Proof. destruct c; try discriminate. reflexivity. Qed.

Lemma poll_failed_is_loop_call (c : Call) : poll_failed c = true -> loop_call c = true.
Proof. destruct c; try discriminate. reflexivity. Qed.

Lemma Pending_destroy (xic : bool) (pty_fd : Z) hold w queue new res hold' w' :
  Pending xic pty_fd hold w queue new res hold' w' ->
  (res = Some true <-> exists post, after_first is_destroy_event new = Some post)
  /\ (forall post, after_first is_destroy_event new = Some post ->
                   post = [cout "DestroyNotify"]).
Proof.
  induction 1 as [hold w|hold w e rest r w1 evlog E Hc Hr
                 |hold w e rest r w1 evlog new res hold' w2 E Hc Hr _ IH].
  - split; [split; [discriminate|intros (post & H); discriminate]|discriminate].
  - destruct (event_quiet _ _ _ _ _ _ _ _ E Hc) as [Hq _].
    pose proof (x11Event_return_cases e xic pty_fd hold (log_call (XNextEvent e) w)) as Hcase.
    unfold logs, eval, exec in Hcase. rewrite E in Hcase. cbn [fst snd] in Hcase.
    destruct (Hcase Hr) as [(-> & Hd & Hl)|(state & time & lk & n & -> & Hd & _)].
    + rewrite Hc in Hl. apply app_inv_head in Hl. subst evlog. rewrite Hd.
      cbn [after_first is_destroy_event].
      split; [split; eauto|]. now intros post [= <-].
    + rewrite Hd. cbn [after_first is_destroy_event].
      rewrite (quiet_none _ _ destroy_is_loop_call Hq).
      split; [split; [discriminate|intros (post & H); discriminate]|discriminate].
  - destruct (event_quiet _ _ _ _ _ _ _ _ E Hc) as [Hq _].
    assert (He : is_destroy_event (XNextEvent e) = false).
    { destruct e; try reflexivity. exfalso. revert E.
      unfold x11Event, x11Event_switch. run. intros [= <- _]. discriminate Hr. }
    cbn [after_first]. rewrite He, after_first_app.
    rewrite (quiet_none _ _ destroy_is_loop_call Hq). exact IH.
Qed.

Lemma reads_of_cases (pty_fd : Z) (hold : bool) (r : PollRound) :
  reads_of pty_fd hold r = [] \/ reads_of pty_fd hold r = [vt_readPty].
Proof. unfold reads_of. destruct (negb _); auto. Qed.

Lemma Loop_destroy (xic : bool) (pty_fd : Z) hold w rounds new out w' :
  Loop xic pty_fd hold w rounds new out w' ->
  (out = Some true <-> exists post, after_first is_destroy_event new = Some post)
  /\ (forall post, after_first is_destroy_event new = Some post ->
                   post = [cout "DestroyNotify"]).
Proof.
  induction 1 as [hold w|hold w r rest Hp
                 |hold w r rest xlog d hold' w2 Hp Hq
                 |hold w r rest xlog hold' w2 new out w3 Hp Hq _ IH].
  - split; [split; [discriminate|intros (post & H); discriminate]|discriminate].
  - split; [split; [discriminate|intros (post & H); discriminate]|discriminate].
  - apply Pending_destroy in Hq. cbn [after_first is_destroy_event poll_call].
    destruct (reads_of_cases pty_fd hold r) as [-> | ->]; exact Hq.
  - apply Pending_destroy in Hq as [Hq1 Hq2]. cbn [after_first is_destroy_event poll_call].
    assert (Hx : after_first is_destroy_event xlog = None).
    { destruct (after_first is_destroy_event xlog) eqn:Ex; [|reflexivity].
      assert (Hn : @None bool = Some true) by (apply Hq1; eauto). discriminate Hn. }
    destruct (reads_of_cases pty_fd hold r) as [-> | ->];
      cbn [app after_first is_destroy_event]; rewrite after_first_app, Hx; exact IH.
Qed.

(** X12: the event loop returns true exactly when a DestroyNotify event
    was handed out: that event is the last one taken from the queue, only
    its report on standard output follows, and [main] then tears the session
    down without calling [XDestroyWindow] on the window that is already
    gone, and exits with status 0. *)
Theorem destroy_notify_ends_loop_with_true
    (rounds : list PollRound) (xic : bool) (x11_fd pty_fd : Z) :
  (forall hold w, exists new,
      logs (eventLoop_from rounds xic pty_fd hold) w new
      /\ (eval (eventLoop_from rounds xic pty_fd hold) w = Some true
          <-> exists post, after_first is_destroy_event new = Some post)
      /\ (forall post, after_first is_destroy_event new = Some post ->
                       post = [cout "DestroyNotify"]))
  /\ (forall w, exists new,
        logs (main_session rounds xic x11_fd pty_fd) w new
        /\ (forall post, after_first is_destroy_event new = Some post ->
                         post = [cout "DestroyNotify"; renderer_reset; eglDestroyContext;
                                 eglDestroySurface; eglTerminate; XCloseDisplay]
                         /\ eval (main_session rounds xic x11_fd pty_fd) w = Some 0)).
Proof.
  split.
  - intros hold w. destruct (eventLoop_runs xic pty_fd rounds hold w) as (new & Hl).
    exists new. split; [exact (Loop_calls _ _ _ _ _ _ _ _ Hl)|].
    exact (Loop_destroy _ _ _ _ _ _ _ _ Hl).
  - intros w. unfold logs, exec, eval. rewrite main_session_unfold. cbv zeta.
    set (w0 := log_call (cout ("pty_fd = " ++ show_Z pty_fd))
                 (log_call (cout ("x11_fd = " ++ show_Z x11_fd)) w)).
    destruct (eventLoop_runs xic pty_fd rounds false w0) as (new & Hl).
    pose proof (Loop_calls _ _ _ _ _ _ _ _ Hl) as Hc.
    destruct (Loop_destroy _ _ _ _ _ _ _ _ Hl) as [Hiff Hpost].
    unfold exec, eval in *.
    destruct (eventLoop_from rounds xic pty_fd false w0) as [[d|] w1]; cbn [fst snd calls] in *.
    + exists ([cout ("x11_fd = " ++ show_Z x11_fd); cout ("pty_fd = " ++ show_Z pty_fd)]
              ++ new
              ++ [renderer_reset; eglDestroyContext; eglDestroySurface; eglTerminate]
              ++ (if d then [] else [XDestroyWindow]) ++ [XCloseDisplay])%list.
      split.
      { rewrite Hc. subst w0. cbn [log_call calls]. rewrite <- !app_assoc. reflexivity. }
      intros post. cbn [app after_first is_destroy_event]. rewrite after_first_app.
      destruct (after_first is_destroy_event new) as [q|] eqn:Eq.
      * rewrite (Hpost q eq_refl).
        assert (Hd : Some d = Some true) by (apply Hiff; eauto). injection Hd as ->.
        intros [= <-]. split; reflexivity.
      * destruct d; cbn; discriminate.
    + exists ([cout ("x11_fd = " ++ show_Z x11_fd); cout ("pty_fd = " ++ show_Z pty_fd)]
              ++ new)%list.
      split.
      { rewrite Hc. subst w0. cbn [log_call calls]. rewrite <- !app_assoc. reflexivity. }
      intros post. cbn [app after_first is_destroy_event]. intros H.
      assert (Hn : @None bool = Some true) by (apply Hiff; eauto). discriminate Hn.
Qed.

Lemma destroy_notify_ends_loop_with_true_witness :
  eval (main_session [mkPollRound 1 0 POLLIN [Expose; DestroyNotify; key_a]] true 4 5)
       (initial_world "" env_full) = Some 0.
Proof.
  destruct (proj2 (destroy_notify_ends_loop_with_true
                     [mkPollRound 1 0 POLLIN [Expose; DestroyNotify; key_a]] true 4 5)
              (initial_world "" env_full)) as (new & Hl & H).
  unfold logs in Hl. cbn [initial_world calls app] in Hl. rewrite <- Hl in H.
  exact (proj2 (H _ eq_refl)).
Defined.

Lemma Pending_no_poll_failed (xic : bool) (pty_fd : Z) hold w queue new res hold' w' :
  Pending xic pty_fd hold w queue new res hold' w' ->
  after_first poll_failed new = None.
Proof.
  induction 1 as [hold w|hold w e rest r w1 evlog E Hc Hr
                 |hold w e rest r w1 evlog new res hold' w2 E Hc Hr _ IH].
  - reflexivity.
  - destruct (event_quiet _ _ _ _ _ _ _ _ E Hc) as [Hq _].
    cbn [after_first poll_failed]. exact (quiet_none _ _ poll_failed_is_loop_call Hq).
  - destruct (event_quiet _ _ _ _ _ _ _ _ E Hc) as [Hq _].
    cbn [after_first poll_failed]. rewrite after_first_app.
    now rewrite (quiet_none _ _ poll_failed_is_loop_call Hq).
Qed.

Lemma Loop_poll_failed (xic : bool) (pty_fd : Z) hold w rounds new out w' :
  Loop xic pty_fd hold w rounds new out w' ->
  forall post, after_first poll_failed new = Some post -> post = [] /\ out = Some false.
Proof.
  induction 1 as [hold w|hold w r rest Hp
                 |hold w r rest xlog d hold' w2 Hp Hq
                 |hold w r rest xlog hold' w2 new out w3 Hp Hq _ IH];
    intros post.
  - discriminate.
  - cbn [after_first poll_failed poll_call]. destruct (poll_ret r <? 0); [|discriminate].
    now intros [= <-].
  - apply orb_false_elim in Hp as [Hrc _].
    cbn [after_first poll_failed poll_call]. rewrite Hrc, after_first_app.
    rewrite (Pending_no_poll_failed _ _ _ _ _ _ _ _ _ Hq).
    destruct (reads_of_cases pty_fd hold r) as [-> | ->]; discriminate.
  - apply orb_false_elim in Hp as [Hrc _].
    cbn [after_first poll_failed poll_call]. rewrite Hrc, !after_first_app.
    rewrite (Pending_no_poll_failed _ _ _ _ _ _ _ _ _ Hq).
    destruct (reads_of_cases pty_fd hold r) as [-> | ->]; cbn [after_first]; apply IH.
Qed.

(** X13: when [poll] fails (returns a negative value) the event loop
    makes no further call: it reads nothing, takes no event from the queue,
    and returns false; [main] then tears the session down and exits. *)
Theorem poll_failure_ends_session (rounds : list PollRound) (xic : bool) (x11_fd pty_fd : Z) :
  (forall hold w, exists new,
      logs (eventLoop_from rounds xic pty_fd hold) w new
      /\ (forall post, after_first poll_failed new = Some post ->
                       post = []
                       /\ eval (eventLoop_from rounds xic pty_fd hold) w = Some false))
  /\ (forall w, exists new,
        logs (main_session rounds xic x11_fd pty_fd) w new
        /\ (forall post, after_first poll_failed new = Some post ->
                         post = teardown_calls
                         /\ eval (main_session rounds xic x11_fd pty_fd) w = Some 0)).
Proof.
  assert (Hloop : forall hold w, exists new,
             calls (exec (eventLoop_from rounds xic pty_fd hold) w) = (calls w ++ new)%list
             /\ (forall post, after_first poll_failed new = Some post ->
                              post = []
                              /\ eval (eventLoop_from rounds xic pty_fd hold) w = Some false)).
  { intros hold w. destruct (eventLoop_runs xic pty_fd rounds hold w) as (new & Hl).
    exists new. split; [exact (Loop_calls _ _ _ _ _ _ _ _ Hl)|].
    exact (Loop_poll_failed _ _ _ _ _ _ _ _ Hl). }
  split; [exact Hloop|]. intros w.
  apply main_session_log; [reflexivity|reflexivity|reflexivity|exact Hloop].
Qed.

Lemma poll_failure_ends_session_witness :
  eval (main_session [mkPollRound 1 POLLIN 0 []; mkPollRound (-1) POLLIN POLLIN [key_a]]
          true 4 5) (initial_world "" env_full) = Some 0.
Proof.
  destruct (proj2 (poll_failure_ends_session
                     [mkPollRound 1 POLLIN 0 []; mkPollRound (-1) POLLIN POLLIN [key_a]]
                     true 4 5)
              (initial_world "" env_full)) as (new & Hl & H).
  unfold logs in Hl. cbn [initial_world calls app] in Hl. rewrite <- Hl in H.
  exact (proj2 (H teardown_calls eq_refl)).
Defined.

Lemma quiet_no_io (l : list Call) : quiet l = true -> filter is_io l = [].
Proof.
  induction l as [|c l IH]; cbn [quiet forallb filter]; [reflexivity|].
  intros H. apply andb_prop in H as [Hc Hl].
  destruct c; try discriminate Hc; cbn [is_io]; exact (IH Hl).
Qed.

Lemma Pending_no_io (xic : bool) (pty_fd : Z) hold w queue new res hold' w' :
  Pending xic pty_fd hold w queue new res hold' w' -> filter is_io new = [].
Proof.
  induction 1 as [hold w|hold w e rest r w1 evlog E Hc Hr
                 |hold w e rest r w1 evlog new res hold' w2 E Hc Hr _ IH].
  - reflexivity.
  - destruct (event_quiet _ _ _ _ _ _ _ _ E Hc) as [Hq _].
    cbn [filter is_io]. exact (quiet_no_io _ Hq).
  - destruct (event_quiet _ _ _ _ _ _ _ _ E Hc) as [Hq _].
    cbn [filter is_io]. now rewrite filter_app, (quiet_no_io _ Hq), IH.
Qed.

Lemma reads_match_skip (l rest : list Call) :
  filter is_io l = [] -> reads_match_polls (l ++ rest) = reads_match_polls rest.
Proof.
  induction l as [|c l IH]; cbn [filter app]; [reflexivity|].
  destruct c; cbn [is_io]; try discriminate; intros H; cbn [reads_match_polls]; exact (IH H).
Qed.

Lemma Loop_reads (xic : bool) (pty_fd : Z) hold w rounds new out w' :
  Loop xic pty_fd hold w rounds new out w' -> reads_match_polls new = true.
Proof.
  induction 1 as [hold w|hold w r rest Hp
                 |hold w r rest xlog d hold' w2 Hp Hq
                 |hold w r rest xlog hold' w2 new out w3 Hp Hq _ IH].
  - reflexivity.
  - unfold poll_call. cbn [reads_match_polls]. unfold announces_input.
    destruct (poll_ret r <? 0); [reflexivity|]. cbn [orb] in Hp.
    apply negb_true_iff in Hp. rewrite Hp. reflexivity.
  - apply orb_false_elim in Hp as [Hrc Hh]. apply negb_false_iff in Hh.
    apply Pending_no_io in Hq.
    unfold poll_call, reads_of. cbn [reads_match_polls]. unfold announces_input.
    rewrite Hrc, Hh. cbn [negb andb].
    destruct (negb (Z.land (poll_revents0 pty_fd hold r) POLLIN =? 0)); cbn [app];
      rewrite <- (app_nil_r xlog), reads_match_skip by exact Hq; reflexivity.
  - apply orb_false_elim in Hp as [Hrc Hh]. apply negb_false_iff in Hh.
    apply Pending_no_io in Hq.
    unfold poll_call, reads_of. cbn [reads_match_polls]. unfold announces_input.
    rewrite Hrc, Hh. cbn [negb andb].
    destruct (negb (Z.land (poll_revents0 pty_fd hold r) POLLIN =? 0)); cbn [app];
      rewrite reads_match_skip by exact Hq; exact IH.
Qed.

(** X14: the loop reads the PTY exactly when [poll] says there is input:
    in the log of every run, each return of [poll] that did not fail and
    reports POLLIN without POLLHUP on the PTY entry is followed at once by
    one call of [readPty], before any X event is taken, and [readPty] is
    called at no other place. *)
Theorem readPty_follows_each_announcing_poll
    (rounds : list PollRound) (xic : bool) (pty_fd : Z) (hold : bool) (w : World) :
  exists new,
    logs (eventLoop_from rounds xic pty_fd hold) w new
    /\ reads_match_polls new = true.
Proof.
  destruct (eventLoop_runs xic pty_fd rounds hold w) as (new & Hl).
  exists new. split; [exact (Loop_calls _ _ _ _ _ _ _ _ Hl)|].
  exact (Loop_reads _ _ _ _ _ _ _ _ Hl).
Qed.

Lemma dequeued_app (a b : list Call) : dequeued (a ++ b) = (dequeued a ++ dequeued b)%list.
Proof.
  induction a as [|c a IH]; cbn [app dequeued]; [reflexivity|].
  destruct c; cbn [app]; now rewrite IH.
Qed.

Lemma quiet_dequeued (l : list Call) : quiet l = true -> dequeued l = [].
Proof.
  induction l as [|c l IH]; cbn [quiet forallb dequeued]; [reflexivity|].
  intros H. apply andb_prop in H as [Hc Hl].
  destruct c; try discriminate Hc; exact (IH Hl).
Qed.

Lemma Pending_dequeued (xic : bool) (pty_fd : Z) hold w queue new res hold' w' :
  Pending xic pty_fd hold w queue new res hold' w' ->
  exists rest, queue = (dequeued new ++ rest)%list /\ (res = None -> rest = []).
Proof.
  induction 1 as [hold w|hold w e rest r w1 evlog E Hc Hr
                 |hold w e rest r w1 evlog new res hold' w2 E Hc Hr _ IH].
  - exists []. auto.
  - destruct (event_quiet _ _ _ _ _ _ _ _ E Hc) as [Hq _].
    exists rest. cbn [dequeued]. rewrite (quiet_dequeued _ Hq).
    split; [reflexivity|discriminate].
  - destruct (event_quiet _ _ _ _ _ _ _ _ E Hc) as [Hq _].
    destruct IH as (tl & -> & Htl). exists tl.
    cbn [dequeued]. rewrite dequeued_app, (quiet_dequeued _ Hq).
    split; [reflexivity|exact Htl].
Qed.

Lemma dequeued_round (pty_fd : Z) (hold : bool) (r : PollRound) (l : list Call) :
  dequeued (poll_call pty_fd hold r :: reads_of pty_fd hold r ++ l) = dequeued l.
Proof.
  unfold poll_call. cbn [dequeued].
  destruct (reads_of_cases pty_fd hold r) as [-> | ->]; reflexivity.
Qed.

Lemma Loop_dequeued (xic : bool) (pty_fd : Z) hold w rounds new out w' :
  Loop xic pty_fd hold w rounds new out w' ->
  exists rest, x_arrivals rounds = (dequeued new ++ rest)%list /\ (out = None -> rest = []).
Proof.
  induction 1 as [hold w|hold w r rest Hp
                 |hold w r rest xlog d hold' w2 Hp Hq
                 |hold w r rest xlog hold' w2 new out w3 Hp Hq _ IH].
  - exists []. auto.
  - exists (x_arrivals (r :: rest)). split; [reflexivity|discriminate].
  - destruct (Pending_dequeued _ _ _ _ _ _ _ _ _ Hq) as (tl & Hqueue & _).
    exists (tl ++ x_arrivals rest)%list. rewrite dequeued_round.
    unfold x_arrivals. cbn [flat_map]. fold (queue_of r). rewrite Hqueue, <- app_assoc.
    split; [reflexivity|discriminate].
  - destruct (Pending_dequeued _ _ _ _ _ _ _ _ _ Hq) as (tl & Hqueue & Htl).
    rewrite (Htl eq_refl), app_nil_r in Hqueue.
    destruct IH as (tl' & Hrest & Htl'). exists tl'.
    rewrite dequeued_round, dequeued_app.
    unfold x_arrivals in *. cbn [flat_map]. fold (queue_of r).
    rewrite Hqueue, Hrest, <- app_assoc. split; [reflexivity|exact Htl'].
Qed.

(** X15: X events are handled in the order they arrive, none twice and
    none skipped: the events [XNextEvent] hands out in a run are an initial
    part of the events that the returns of [poll] announced on the X11
    connection, and all of them when the loop has not returned. (Events
    queued in a round whose [poll] does not report the X11 connection
    readable are not looked at in that round.) *)
Theorem events_handled_in_arrival_order
    (rounds : list PollRound) (xic : bool) (pty_fd : Z) (hold : bool) (w : World) :
  exists new rest,
    logs (eventLoop_from rounds xic pty_fd hold) w new
    /\ x_arrivals rounds = (dequeued new ++ rest)%list
    /\ (eval (eventLoop_from rounds xic pty_fd hold) w = None -> rest = []).
Proof.
  destruct (eventLoop_runs xic pty_fd rounds hold w) as (new & Hl).
  destruct (Loop_dequeued _ _ _ _ _ _ _ _ Hl) as (rest & H1 & H2).
  exists new, rest. split; [exact (Loop_calls _ _ _ _ _ _ _ _ Hl)|]. auto.
Qed.





(* ------------------------------------------------------------------ *)
(** ** Redrawing *)

Lemma keyPress_no_redraw (state : Z) (time : Time) (lk : KeyLookup) (xic hold : bool) (w : World) :
  exists new,
    calls (snd (keyPress state time lk xic hold w)) = (calls w ++ new)%list
    /\ filter is_redraw new = [].
Proof.
  unfold keyPress.
  destruct (xic && lk_overflow lk).
  { run. eexists; split; [reflexivity|reflexivity]. }
  destruct (((lk_ks lk =? XK_Insert) || (lk_ks lk =? XK_KP_Insert)) && (state =? ShiftMask)).
  { run. eexists; split; [rewrite <- ?app_assoc; reflexivity|reflexivity]. }
  destruct (((lk_ks lk =? XK_space) || (lk_ks lk =? XK_KP_Space))
            && negb (Z.land state (Z.lor Button1Mask Button3Mask) =? 0)).
  { run. eexists; split; [reflexivity|reflexivity]. }
  destruct (keysend KEYSEND (lk_ks lk)).
  { run. eexists; split; [reflexivity|reflexivity]. }
  destruct (keyign (lk_ks lk)).
  { run. exists []. now rewrite app_nil_r. }
  destruct (lk_filtered lk).
  { run. exists []. now rewrite app_nil_r. }
  destruct (strlen (lk_text lk) >? 1); run;
    match goal with |- context [if ?b then _ else _] => destruct b end; run;
    eexists; split; reflexivity.
Qed.

Lemma x11Event_switch_no_redraw (event : XEvent) (xic hold : bool) (w : World) :
  exists new,
    calls (snd (x11Event_switch event xic hold w)) = (calls w ++ new)%list
    /\ filter is_redraw new = [].
Proof.
  destruct event; cbn [x11Event_switch];
    try apply keyPress_no_redraw;
    unfold buttonPress, buttonRelease; crunch;
    (eexists; split;
     [first [symmetry; apply app_nil_r | rewrite <- ?app_assoc; reflexivity]|reflexivity]).
Qed.

Lemma x11Event_redraw_last (event : XEvent) (xic : bool) (pty_fd : Z) (hold : bool) (w : World) :
  exists (new0 : list Call) (b : bool),
    calls (exec (x11Event event xic pty_fd hold) w)
    = (calls w ++ new0 ++ if b then [vt_redraw] else [])%list
    /\ filter is_redraw new0 = []
    /\ (b = true -> exposed (statics (exec (x11Event event xic pty_fd hold) w)) = true).
Proof.
  destruct (x11Event_switch_no_redraw event xic hold w) as (new0 & Hc & Hr).
  unfold exec, x11Event, bind.
  destruct (x11Event_switch event xic hold w) as [f w1]. cbn [snd] in Hc.
  destruct f as [redraw h|v d h].
  - unfold get. destruct (exposed (statics w1) && redraw) eqn:Hb; run.
    + exists new0, true. rewrite Hc, <- app_assoc. repeat split; [exact Hr|].
      intros _. now apply andb_prop in Hb.
    + exists new0, false. rewrite Hc, app_nil_r. repeat split; [exact Hr|discriminate].
  - run. exists new0, false. rewrite Hc, app_nil_r. repeat split; [exact Hr|discriminate].
Qed.

Lemma redraw_skip (seen : bool) (l rest : list Call) :
  quiet l = true -> filter is_redraw l = [] ->
  redraw_after_expose seen (l ++ rest) = redraw_after_expose seen rest.
Proof.
  induction l as [|c l IH]; cbn [quiet forallb filter app]; [reflexivity|].
  intros Hq Hr. apply andb_prop in Hq as [Hc Hl].
  destruct c; try discriminate Hc; try discriminate Hr;
    cbn [is_redraw] in Hr; cbn [redraw_after_expose]; exact (IH Hl Hr).
Qed.

Lemma redraw_next_event (seen : bool) (e : XEvent) (l : list Call) :
  redraw_after_expose seen (XNextEvent e :: l) = redraw_after_expose (seen || is_expose e) l.
Proof.
  destruct e; cbn [redraw_after_expose is_expose];
    rewrite ?orb_false_r, ?orb_true_r; reflexivity.
Qed.

Lemma quiet_app_inv (a b : list Call) : quiet (a ++ b) = true -> quiet a = true.
Proof. rewrite quiet_app. intros H. now apply andb_prop in H. Qed.

Lemma event_redraw (e : XEvent) (xic : bool) (pty_fd : Z) (hold : bool)
    (w w1 : World) (r : X11Result) (evlog rest : list Call) :
  x11Event e xic pty_fd hold (log_call (XNextEvent e) w) = (r, w1) ->
  calls w1 = (calls (log_call (XNextEvent e) w) ++ evlog)%list ->
  redraw_after_expose (exposed (statics w)) (XNextEvent e :: evlog ++ rest)
  = redraw_after_expose (exposed (statics w1)) rest.
Proof.
  intros E Hc.
  destruct (event_quiet _ _ _ _ _ _ _ _ E Hc) as [Hq _].
  destruct (x11Event_redraw_last e xic pty_fd hold (log_call (XNextEvent e) w))
    as (new0 & b & Hn & Hr & Hb).
  pose proof (x11Event_frame_facts e xic pty_fd hold (log_call (XNextEvent e) w))
    as (Hexp & _).
  unfold exec in Hn, Hb, Hexp. rewrite E in Hn, Hb, Hexp. cbn [snd] in Hn, Hb, Hexp.
  rewrite Hc in Hn. apply app_inv_head in Hn. subst evlog.
  rewrite log_call_statics in Hexp.
  rewrite redraw_next_event, <- Hexp, <- app_assoc.
  rewrite redraw_skip by (eauto using quiet_app_inv).
  destruct b; cbn [app redraw_after_expose]; [|reflexivity].
  now rewrite (Hb eq_refl).
Qed.

Lemma Pending_redraw (xic : bool) (pty_fd : Z) hold w queue new res hold' w' :
  Pending xic pty_fd hold w queue new res hold' w' ->
  redraw_after_expose (exposed (statics w)) new = Some (exposed (statics w')).
Proof.
  induction 1 as [hold w|hold w e rest r w1 evlog E Hc Hr
                 |hold w e rest r w1 evlog new res hold' w2 E Hc Hr _ IH].
  - reflexivity.
  - rewrite <- (app_nil_r evlog). now rewrite (event_redraw _ _ _ _ _ _ _ _ _ E Hc).
  - now rewrite (event_redraw _ _ _ _ _ _ _ _ _ E Hc).
Qed.

Lemma after_poll_statics (pty_fd : Z) (hold : bool) (r : PollRound) (w : World) :
  statics (after_poll pty_fd hold r w) = statics w.
Proof. unfold after_poll. destruct (negb _); reflexivity. Qed.

Lemma redraw_round (pty_fd : Z) (hold : bool) (r : PollRound) (seen : bool) (l : list Call) :
  redraw_after_expose seen (poll_call pty_fd hold r :: reads_of pty_fd hold r ++ l)
  = redraw_after_expose seen l.
Proof.
  unfold poll_call. cbn [redraw_after_expose].
  destruct (reads_of_cases pty_fd hold r) as [-> | ->]; reflexivity.
Qed.

Lemma redraw_app (seen : bool) (a b : list Call) :
  redraw_after_expose seen (a ++ b)
  = match redraw_after_expose seen a with
    | Some seen' => redraw_after_expose seen' b
    | None => None
    end.
Proof.
  revert seen. induction a as [|c a IH]; intros seen; cbn [app redraw_after_expose];
    [reflexivity|].
  destruct c; try apply IH.
  - destruct seen; [apply IH|reflexivity].
  - destruct e; apply IH.
Qed.

Lemma Loop_redraw (xic : bool) (pty_fd : Z) hold w rounds new out w' :
  Loop xic pty_fd hold w rounds new out w' ->
  redraw_after_expose (exposed (statics w)) new = Some (exposed (statics w')).
Proof.
  induction 1 as [hold w|hold w r rest Hp
                 |hold w r rest xlog d hold' w2 Hp Hq
                 |hold w r rest xlog hold' w2 new out w3 Hp Hq _ IH].
  - reflexivity.
  - reflexivity.
  - apply Pending_redraw in Hq. rewrite after_poll_statics in Hq.
    now rewrite redraw_round.
  - apply Pending_redraw in Hq. rewrite after_poll_statics in Hq.
    now rewrite redraw_round, redraw_app, Hq.
Qed.

(** X17: nothing is drawn before the window is exposed: in every run of
    the event loop, [redraw] is called only after an Expose event has been
    handed out (or when the window had been exposed before the run), and
    [exposed] at the end of the run says whether that is so. *)
Theorem redraw_only_after_expose
    (rounds : list PollRound) (xic : bool) (pty_fd : Z) (hold : bool) (w : World) :
  exists new,
    logs (eventLoop_from rounds xic pty_fd hold) w new
    /\ redraw_after_expose (exposed (statics w)) new
       = Some (exposed (statics (exec (eventLoop_from rounds xic pty_fd hold) w))).
Proof.
  destruct (eventLoop_runs xic pty_fd rounds hold w) as (new & Hl).
  exists new. split; [exact (Loop_calls _ _ _ _ _ _ _ _ Hl)|].
  exact (Loop_redraw _ _ _ _ _ _ _ _ Hl).
Qed.

(* ------------------------------------------------------------------ *)
(** ** The key tables *)

Lemma distinct_keysend (table : list (KeySym * VtKey)) (ks : KeySym) (k : VtKey) :
  distinct (map fst table) = true -> In (ks, k) table -> keysend table ks = Some k.
Proof.
  induction table as [|[xkey vtkey] rest IH]; cbn [map fst distinct keysend In]; [tauto|].
  intros Hd [H|H].
  - injection H as -> ->. now rewrite Z.eqb_refl.
  - apply andb_prop in Hd as [Hx Hrest].
    destruct (Z.eqb_spec ks xkey) as [->|_]; [|exact (IH Hrest H)].
    exfalso. apply negb_true_iff in Hx.
    assert (Hin : existsb (Z.eqb xkey) (map fst rest) = true).
    { apply existsb_exists. exists xkey. split; [|apply Z.eqb_refl].
      change xkey with (fst (xkey, k)). now apply in_map. }
    congruence.
Qed.

Lemma KEYSEND_keys_differ (k1 k2 : KeySym) (v : VtKey) :
  In (k1, v) KEYSEND -> In (k2, v) KEYSEND -> k1 = k2.
Proof.
  unfold KEYSEND. intros H1 H2.
  repeat (destruct H1 as [H1|H1];
          [injection H1 as <- <-;
           repeat (destruct H2 as [H2|H2];
                   [first [discriminate H2 | (injection H2 as <-; reflexivity)]|]);
           destruct H2|]).
  destruct H1.
Qed.

(** X18: the key tables translate one to one. The case labels of the
    keysym switch (the [KEYSEND] and [KEYIGN] clauses together) are pairwise
    different, so every clause listed is the one its keysym selects; no two
    keysyms are sent as the same [VtKey]; and a keysym of the ignore list is
    never sent. *)
Theorem key_tables_one_to_one :
  distinct (map fst KEYSEND ++ KEYIGN) = true
  /\ (forall ks k, In (ks, k) KEYSEND <-> keysend KEYSEND ks = Some k)
  /\ (forall k1 k2 v,
        keysend KEYSEND k1 = Some v -> keysend KEYSEND k2 = Some v -> k1 = k2)
  /\ (forall ks, keyign ks = true -> keysend KEYSEND ks = None).
Proof.
  split; [reflexivity|]. split; [|split].
  - intros ks k. split; [|apply keysend_In].
    apply distinct_keysend. reflexivity.
  - intros k1 k2 v H1 H2.
    exact (KEYSEND_keys_differ k1 k2 v (keysend_In _ _ _ H1) (keysend_In _ _ _ H2)).
  - intros ks H. unfold keyign in H. apply existsb_exists in H as (x & Hin & Hx).
    apply Z.eqb_eq in Hx. subst x. exact (proj1 (KEYIGN_clause ks Hin)).
Qed.

(* ------------------------------------------------------------------ *)
(** ** The input context *)

Lemma choose_xim_style_cases (styles : list Z) :
  (In (Z.lor Xlib.XIMPreeditNothing Xlib.XIMStatusNothing) styles
   /\ choose_xim_style styles = Z.lor Xlib.XIMPreeditNothing Xlib.XIMStatusNothing)
  \/ (~ In (Z.lor Xlib.XIMPreeditNothing Xlib.XIMStatusNothing) styles
      /\ choose_xim_style styles = 0).
Proof.
  induction styles as [|s rest IH]; cbn [choose_xim_style In].
  - right. split; [tauto|reflexivity].
  - destruct (Z.eqb_spec s (Z.lor Xlib.XIMPreeditNothing Xlib.XIMStatusNothing)) as [->|Hne].
    + left. split; [now left|reflexivity].
    + destruct IH as [[Hin ->]|[Hnin ->]].
      * left. split; [now right|reflexivity].
      * right. split; [|reflexivity]. intros [H|H]; [congruence|tauto].
Qed.

(** X19: [main] has an input context only if the input method could be
    opened, lists the style PreeditNothing | StatusNothing among those it
    supports, and [XCreateIC] succeeded: the style chosen is that one if it
    is listed and 0 otherwise. Without an input context [x11Event] looks keys
    up with [XLookupString] and never takes the XBufferOverflow branch. *)
Theorem input_context_needs_plain_style
    (xim : bool) (styles : list Z) (XCreateIC_ok : bool) :
  (choose_xim_style styles = Z.lor Xlib.XIMPreeditNothing Xlib.XIMStatusNothing
   <-> In (Z.lor Xlib.XIMPreeditNothing Xlib.XIMStatusNothing) styles)
  /\ (choose_xim_style styles = 0
      <-> ~ In (Z.lor Xlib.XIMPreeditNothing Xlib.XIMStatusNothing) styles)
  /\ (have_xic xim (choose_xim_style styles) XCreateIC_ok = true
      <-> xim = true
          /\ In (Z.lor Xlib.XIMPreeditNothing Xlib.XIMStatusNothing) styles
          /\ XCreateIC_ok = true)
  /\ (forall state time ks text overflow filtered pty_fd hold w,
        x11Event (KeyPress state time (mkKeyLookup ks text overflow filtered))
                 false pty_fd hold w
        = x11Event (KeyPress state time (mkKeyLookup ks text false filtered))
                   false pty_fd hold w).
Proof.
  assert (Hne : Z.lor Xlib.XIMPreeditNothing Xlib.XIMStatusNothing <> 0) by discriminate.
  destruct (choose_xim_style_cases styles) as [[Hin E]|[Hnin E]]; rewrite E.
  - split; [tauto|]. split; [split; [intros H; congruence|tauto]|]. split.
    + unfold have_xic. destruct xim, XCreateIC_ok; cbn; intuition discriminate.
    + reflexivity.
  - split; [split; [intros H; congruence|tauto]|]. split; [tauto|]. split.
    + unfold have_xic. destruct xim, XCreateIC_ok; cbn; intuition discriminate.
    + reflexivity.
Qed.

(* ------------------------------------------------------------------ *)
(** ** validateShell *)

(** X20: [validateShell] removes SHELL from the environment exactly when
    the resolved program is not one of the permitted shells. When it is, the
    list of shells is read up to its first occurrence and no further; when it
    is not, the list is read to its end. Either way [endusershell] is called
    once, after the last [getusershell]. *)
Theorem validateShell_unsets_SHELL_iff_not_permitted (progPath : string) (shells : list string) :
  (In progPath shells ->
   exists before after,
     shells = (before ++ progPath :: after)%list
     /\ ~ In progPath before
     /\ validateShell_scan progPath shells
        = (map (fun s => getusershell (Some s)) before
           ++ [getusershell (Some progPath); endusershell])%list)
  /\ (~ In progPath shells ->
      validateShell_scan progPath shells
      = (map (fun s => getusershell (Some s)) shells
         ++ [getusershell None; endusershell; unsetenv_SHELL])%list)
  /\ (In unsetenv_SHELL (validateShell_scan progPath shells) <-> ~ In progPath shells).
Proof.
  induction shells as [|s rest (IH1 & IH2 & IH3)]; cbn [validateShell_scan In map app].
  - split; [tauto|]. split; [reflexivity|]. split; [tauto|]. intros _. right; right; now left.
  - destruct (String.eqb_spec progPath s) as [->|Hne].
    + split; [|split].
      * intros _. exists [], rest. repeat split. tauto.
      * intros H. exfalso. apply H. now left.
      * split.
        -- intros [H|[H|[]]]; discriminate H.
        -- intros H. exfalso. apply H. now left.
    + split; [|split].
      * intros [H|H]; [congruence|].
        destruct (IH1 H) as (before & after & -> & Hb & ->).
        exists (s :: before), after. cbn [app map In]. repeat split.
        intros [H'|H']; [congruence|tauto].
      * intros H. rewrite IH2 by tauto. reflexivity.
      * split.
        -- intros [H|H]; [discriminate H|]. apply IH3 in H. intros [H'|H']; [congruence|tauto].
        -- intros H. right. apply IH3. tauto.
Qed.

Lemma validateShell_unsets_SHELL_iff_not_permitted_witness :
  validateShell_scan "/bin/zsh" ["/bin/sh"; "/bin/bash"]
  = [getusershell (Some "/bin/sh"); getusershell (Some "/bin/bash");
     getusershell None; endusershell; unsetenv_SHELL].
Proof.
  apply (proj1 (proj2 (validateShell_unsets_SHELL_iff_not_permitted
                         "/bin/zsh" ["/bin/sh"; "/bin/bash"]))).
  intros [H|[H|[]]]; discriminate H.
Defined.
